(** * freud.py: the fpaper decoder and the Totem pager

    A shallow embedding of [freud.py] (the Python implementation of Freud, a
    renderer for the fpaper e-paper format) together with the properties of
    its byte-stream decoder [FPaper_Extract] and of the keyboard loop of its
    pager [Totem].

    Conventions of the embedding:
    - a Python [bytes] object of length one (what [file.read(1)] returns) is a
      [byte]; the input file is a [list byte];
    - a Python [str] is a [string];
    - the instance attributes of a class are the fields of a record, and a
      method that mutates [self] is a function from the record to the record;
    - a method that may raise returns a [result]; the exceptions that the
      modelled code can raise are listed in [exn];
    - [int] is [Z]; the one [float] of the program ([Totem.__down__]) is a
      rational number on which every operation rounds to binary64. *)

From Stdlib Require Import ZArith QArith Bool List Lia.
From Stdlib Require Import Floats.SpecFloat Qround.
From Stdlib Require Import Strings.String Strings.Ascii Strings.Byte.
From Stdlib Require Import Numbers.DecimalString.
Import ListNotations.

Local Open Scope Z_scope.

(** ** Exceptions and the error monad *)

Inductive exn : Type :=
| UnicodeDecodeError   (* [bytes.decode('utf-8')] on an invalid sequence *)
| OSError.             (* [open] on a file that cannot be opened *)

Inductive result (A : Type) : Type :=
| Ok (a : A)
| Raise (e : exn).

Arguments Ok {A} a.
Arguments Raise {A} e.

Definition bind {A B : Type} (r : result A) (k : A -> result B) : result B :=
  match r with
  | Ok a => k a
  | Raise e => Raise e
  end.

Notation "x <- r ;; k" := (bind r (fun x => k))
  (at level 61, r at next level, right associativity).

(** ** Python built-ins used by the program *)

Module Py.

(** [ch.decode('utf-8')] for a [bytes] object [ch] of length one: a byte
    below 128 is the code point of that value, any other single byte is
    not a complete UTF-8 sequence (a continuation byte, a lead byte with no
    continuation, or an invalid byte) and raises. *)
Definition decode_utf8 (ch : byte) : result ascii :=
  if (Byte.to_N ch <? 128)%N then Ok (ascii_of_byte ch)
  else Raise UnicodeDecodeError.

(** [ord(c)] *)
Definition ord (c : ascii) : Z := Z.of_N (N_of_ascii c).

(** [str(n)], what an f-string does with an [int] *)
Definition str (n : Z) : string := NilZero.string_of_int (Z.to_int n).

(** [s += c] for a one-character [c] *)
Definition add_char (s : string) (c : ascii) : string :=
  (s ++ String c EmptyString)%string.

(** [for i in range(0, width): s += ' '] *)
Fixpoint add_spaces (n : nat) (s : string) : string :=
  match n with
  | O => s
  | S n' => add_spaces n' (s ++ " ")%string
  end.

(** [range(0, width)] has [max 0 width] elements *)
Definition range_len (width : Z) : nat := Z.to_nat width.

End Py.

(** ** [class FPaperMarkers] *)

Module FPaperMarkers.

Definition START_MARKER : byte := x02.
Definition START_MARKER_2 : byte := x46.
Definition START_MARKER_3 : byte := x50.
Definition START_MARKER_4 : byte := x61.
Definition START_MARKER_5 : byte := x67.
Definition START_MARKER_6 : byte := x65.

Definition START_OF_TEXT : byte := x26.
Definition END_OF_TEXT : byte := x15.

Definition STYLE_MARKER : byte := x1a.
Definition LIGHT_SET : byte := x30.
Definition BOLD_SET : byte := x31.
Definition DIM_SET : byte := x32.
Definition ITALIC_SET : byte := x33.
Definition UNDERLINED_SET : byte := x34.
Definition BLINK_SET : byte := x35.
Definition RAPID_BLINK_SET : byte := x36.

Definition COLOR_RESET : byte := x72.

Definition ALIGN_LEFT_SET : byte := x7b.
Definition ALIGN_CENTER_SET : byte := x7c.
Definition ALIGN_RIGHT_SET : byte := x7d.
Definition ALIGN_RESET : byte := x7e.

Definition is_start_marker (ch : byte) : bool := Byte.eqb ch START_MARKER.
Definition is_start_marker_2 (ch : byte) : bool := Byte.eqb ch START_MARKER_2.
Definition is_start_marker_3 (ch : byte) : bool := Byte.eqb ch START_MARKER_3.
Definition is_start_marker_4 (ch : byte) : bool := Byte.eqb ch START_MARKER_4.
Definition is_start_marker_5 (ch : byte) : bool := Byte.eqb ch START_MARKER_5.
Definition is_start_marker_6 (ch : byte) : bool := Byte.eqb ch START_MARKER_6.
Definition is_start_of_text (ch : byte) : bool := Byte.eqb ch START_OF_TEXT.
Definition is_end_of_text (ch : byte) : bool := Byte.eqb ch END_OF_TEXT.
Definition is_style_marker (ch : byte) : bool := Byte.eqb ch STYLE_MARKER.
Definition is_light_marker (ch : byte) : bool := Byte.eqb ch LIGHT_SET.
Definition is_bold_marker (ch : byte) : bool := Byte.eqb ch BOLD_SET.
Definition is_dim_marker (ch : byte) : bool := Byte.eqb ch DIM_SET.
Definition is_italic_marker (ch : byte) : bool := Byte.eqb ch ITALIC_SET.
Definition is_underlined_marker (ch : byte) : bool :=
  Byte.eqb ch UNDERLINED_SET.
Definition is_blink_marker (ch : byte) : bool := Byte.eqb ch BLINK_SET.
Definition is_rapid_marker (ch : byte) : bool := Byte.eqb ch RAPID_BLINK_SET.
Definition is_color_reset (ch : byte) : bool := Byte.eqb ch COLOR_RESET.
Definition is_left_align (ch : byte) : bool := Byte.eqb ch ALIGN_LEFT_SET.
Definition is_center_align (ch : byte) : bool :=
  Byte.eqb ch ALIGN_CENTER_SET.
Definition is_right_align (ch : byte) : bool := Byte.eqb ch ALIGN_RIGHT_SET.
Definition is_reset_align (ch : byte) : bool := Byte.eqb ch ALIGN_RESET.

End FPaperMarkers.

(** ** The environment of the process *)

(** What the program reads from its surroundings: the window size that
    [ioctl(TIOCGWINSZ)] reports (two unsigned shorts) and the string that
    [platform.system()] returns. *)
Record Env : Type := {
  ws_row : N;
  ws_col : N;
  platform_system : string
}.

(** [get_terminal_size()]: returns [rows, cols], in this order. *)
Definition get_terminal_size (env : Env) : Z * Z :=
  (Z.of_N (ws_row env), Z.of_N (ws_col env)).

(** The escape character, ['\x1b']. *)
Definition ESC : ascii := ascii_of_byte x1b.

(** ['\x1b[' + code + 'm'] *)
Definition sgr (code : string) : string :=
  String ESC (String "[" (code ++ "m")).

(** ** [class FPaper_Extract] *)

Module FPaper_Extract.

Record t : Type := {
  extracted_text : string;
  get_align_text : string;
  is_start_marker : bool;
  is_start_marker_2 : bool;
  is_start_marker_3 : bool;
  is_start_marker_4 : bool;
  is_start_marker_5 : bool;
  is_start_marker_6 : bool;
  is_start_of_text : bool;
  is_end_of_text : bool;
  is_style_marker : bool;
  is_align : bool;
  is_left_align : bool;
  is_center_align : bool;
  is_right_align : bool;
  is_reset_align : bool;
  w__ : Z;
  h__ : Z
}.

(** [__init__]: note that [self.__w__, self.__h__ = get_terminal_size()]
    binds [__w__] to the first component (the rows) and [__h__] to the
    second (the columns). *)
Definition init (env : Env) : t :=
  let '(w, h) := get_terminal_size env in
  {| extracted_text := ""; get_align_text := "";
     is_start_marker := false; is_start_marker_2 := false;
     is_start_marker_3 := false; is_start_marker_4 := false;
     is_start_marker_5 := false; is_start_marker_6 := false;
     is_start_of_text := false; is_end_of_text := false;
     is_style_marker := false;
     is_align := false; is_left_align := false; is_center_align := false;
     is_right_align := false; is_reset_align := false;
     w__ := w; h__ := h |}.

(** Attribute assignments. *)
Definition set_extracted_text (v : string) (s : t) : t :=
  {| extracted_text := v; get_align_text := get_align_text s;
     is_start_marker := is_start_marker s;
     is_start_marker_2 := is_start_marker_2 s;
     is_start_marker_3 := is_start_marker_3 s;
     is_start_marker_4 := is_start_marker_4 s;
     is_start_marker_5 := is_start_marker_5 s;
     is_start_marker_6 := is_start_marker_6 s;
     is_start_of_text := is_start_of_text s;
     is_end_of_text := is_end_of_text s;
     is_style_marker := is_style_marker s;
     is_align := is_align s; is_left_align := is_left_align s;
     is_center_align := is_center_align s;
     is_right_align := is_right_align s;
     is_reset_align := is_reset_align s;
     w__ := w__ s; h__ := h__ s |}.

Definition set_get_align_text (v : string) (s : t) : t :=
  {| extracted_text := extracted_text s; get_align_text := v;
     is_start_marker := is_start_marker s;
     is_start_marker_2 := is_start_marker_2 s;
     is_start_marker_3 := is_start_marker_3 s;
     is_start_marker_4 := is_start_marker_4 s;
     is_start_marker_5 := is_start_marker_5 s;
     is_start_marker_6 := is_start_marker_6 s;
     is_start_of_text := is_start_of_text s;
     is_end_of_text := is_end_of_text s;
     is_style_marker := is_style_marker s;
     is_align := is_align s; is_left_align := is_left_align s;
     is_center_align := is_center_align s;
     is_right_align := is_right_align s;
     is_reset_align := is_reset_align s;
     w__ := w__ s; h__ := h__ s |}.

(** The seven flags of the prologue and of the start of the text. *)
Definition set_start_flags (m1 m2 m3 m4 m5 m6 sot : bool) (s : t) : t :=
  {| extracted_text := extracted_text s;
     get_align_text := get_align_text s;
     is_start_marker := m1; is_start_marker_2 := m2;
     is_start_marker_3 := m3; is_start_marker_4 := m4;
     is_start_marker_5 := m5; is_start_marker_6 := m6;
     is_start_of_text := sot;
     is_end_of_text := is_end_of_text s;
     is_style_marker := is_style_marker s;
     is_align := is_align s; is_left_align := is_left_align s;
     is_center_align := is_center_align s;
     is_right_align := is_right_align s;
     is_reset_align := is_reset_align s;
     w__ := w__ s; h__ := h__ s |}.

Definition set_is_end_of_text (v : bool) (s : t) : t :=
  {| extracted_text := extracted_text s;
     get_align_text := get_align_text s;
     is_start_marker := is_start_marker s;
     is_start_marker_2 := is_start_marker_2 s;
     is_start_marker_3 := is_start_marker_3 s;
     is_start_marker_4 := is_start_marker_4 s;
     is_start_marker_5 := is_start_marker_5 s;
     is_start_marker_6 := is_start_marker_6 s;
     is_start_of_text := is_start_of_text s;
     is_end_of_text := v;
     is_style_marker := is_style_marker s;
     is_align := is_align s; is_left_align := is_left_align s;
     is_center_align := is_center_align s;
     is_right_align := is_right_align s;
     is_reset_align := is_reset_align s;
     w__ := w__ s; h__ := h__ s |}.

Definition set_is_style_marker (v : bool) (s : t) : t :=
  {| extracted_text := extracted_text s;
     get_align_text := get_align_text s;
     is_start_marker := is_start_marker s;
     is_start_marker_2 := is_start_marker_2 s;
     is_start_marker_3 := is_start_marker_3 s;
     is_start_marker_4 := is_start_marker_4 s;
     is_start_marker_5 := is_start_marker_5 s;
     is_start_marker_6 := is_start_marker_6 s;
     is_start_of_text := is_start_of_text s;
     is_end_of_text := is_end_of_text s;
     is_style_marker := v;
     is_align := is_align s; is_left_align := is_left_align s;
     is_center_align := is_center_align s;
     is_right_align := is_right_align s;
     is_reset_align := is_reset_align s;
     w__ := w__ s; h__ := h__ s |}.

(** The five alignment flags, in the order
    [is_align], [is_left_align], [is_center_align], [is_right_align],
    [is_reset_align]. *)
Definition set_align_flags (a l c r rs : bool) (s : t) : t :=
  {| extracted_text := extracted_text s;
     get_align_text := get_align_text s;
     is_start_marker := is_start_marker s;
     is_start_marker_2 := is_start_marker_2 s;
     is_start_marker_3 := is_start_marker_3 s;
     is_start_marker_4 := is_start_marker_4 s;
     is_start_marker_5 := is_start_marker_5 s;
     is_start_marker_6 := is_start_marker_6 s;
     is_start_of_text := is_start_of_text s;
     is_end_of_text := is_end_of_text s;
     is_style_marker := is_style_marker s;
     is_align := a; is_left_align := l; is_center_align := c;
     is_right_align := r; is_reset_align := rs;
     w__ := w__ s; h__ := h__ s |}.

(** [self.extracted_text += v] *)
Definition emit (v : string) (s : t) : t :=
  set_extracted_text (extracted_text s ++ v) s.

(** [def left(self, width, text)] *)
Definition left (width : Z) (text : string) (s : t) : t :=
  let s1 := emit text s in
  set_extracted_text
    (Py.add_spaces (Py.range_len width) (extracted_text s1)) s1.

(** [def center(self, width, text)] *)
Definition center (width : Z) (text : string) (s : t) : t :=
  let s1 :=
    set_extracted_text
      (Py.add_spaces (Py.range_len width) (extracted_text s)) s in
  let s2 := emit text s1 in
  set_extracted_text
    (Py.add_spaces (Py.range_len width) (extracted_text s2)) s2.

(** [def right(self, width, text)] *)
Definition right (width : Z) (text : string) (s : t) : t :=
  let s1 :=
    set_extracted_text
      (Py.add_spaces (Py.range_len (width * 2)) (extracted_text s)) s in
  emit text s1.

(** [def detect_style(self, ch)] *)
Definition detect_style (env : Env) (ch : byte) (s : t) : result t :=
  if FPaperMarkers.is_light_marker ch then Ok (emit (sgr "0") s)
  else if FPaperMarkers.is_bold_marker ch then Ok (emit (sgr "1") s)
  else if FPaperMarkers.is_dim_marker ch then Ok (emit (sgr "2") s)
  else if FPaperMarkers.is_italic_marker ch then Ok (emit (sgr "3") s)
  else if FPaperMarkers.is_underlined_marker ch then Ok (emit (sgr "4") s)
  else if FPaperMarkers.is_blink_marker ch then Ok (emit (sgr "5") s)
  else if FPaperMarkers.is_rapid_marker ch then
    if String.eqb (platform_system env) "Windows"
    then Ok (emit (sgr "6") s)
    else Ok s
  else if FPaperMarkers.is_left_align ch then
    (* is_align = True; right = center = reset = False; left = True *)
    Ok (set_align_flags true true false false false s)
  else if FPaperMarkers.is_center_align ch then
    Ok (set_align_flags true false true false false s)
  else if FPaperMarkers.is_right_align ch then
    Ok (set_align_flags true false false true false s)
  else if FPaperMarkers.is_reset_align ch then
    let s1 :=
      if is_center_align s then center (w__ s) (get_align_text s) s
      else if is_left_align s then left (w__ s) (get_align_text s) s
      else if is_right_align s then right (w__ s) (get_align_text s) s
      else s in
    Ok (set_get_align_text ""
          (set_align_flags false false false false false s1))
  else if FPaperMarkers.is_color_reset ch then Ok (emit (sgr "0") s)
  else
    c <- Py.decode_utf8 ch ;;
    let data := Py.ord c in
    if ((40 <=? data) && (data <=? 49)) || ((100 <=? data) && (data <=? 109))
    then Ok (emit (sgr (Py.str (data - 10))) s)
    else Ok s.

(** [def detect(self, ch)] *)
Definition detect (env : Env) (ch : byte) (s : t) : result t :=
  if is_style_marker s then
    s1 <- detect_style env ch s ;;
    Ok (set_is_style_marker false s1)
  else if negb (is_start_marker s) then
    Ok (set_start_flags (FPaperMarkers.is_start_marker ch)
          (is_start_marker_2 s) (is_start_marker_3 s) (is_start_marker_4 s)
          (is_start_marker_5 s) (is_start_marker_6 s) (is_start_of_text s) s)
  else if negb (is_start_marker_2 s) then
    Ok (set_start_flags (is_start_marker s)
          (FPaperMarkers.is_start_marker_2 ch)
          (is_start_marker_3 s) (is_start_marker_4 s)
          (is_start_marker_5 s) (is_start_marker_6 s) (is_start_of_text s) s)
  else if negb (is_start_marker_3 s) then
    Ok (set_start_flags (is_start_marker s) (is_start_marker_2 s)
          (FPaperMarkers.is_start_marker_3 ch) (is_start_marker_4 s)
          (is_start_marker_5 s) (is_start_marker_6 s) (is_start_of_text s) s)
  else if negb (is_start_marker_4 s) then
    Ok (set_start_flags (is_start_marker s) (is_start_marker_2 s)
          (is_start_marker_3 s) (FPaperMarkers.is_start_marker_4 ch)
          (is_start_marker_5 s) (is_start_marker_6 s) (is_start_of_text s) s)
  else if negb (is_start_marker_5 s) then
    Ok (set_start_flags (is_start_marker s) (is_start_marker_2 s)
          (is_start_marker_3 s) (is_start_marker_4 s)
          (FPaperMarkers.is_start_marker_5 ch)
          (is_start_marker_6 s) (is_start_of_text s) s)
  else if negb (is_start_marker_6 s) then
    Ok (set_start_flags (is_start_marker s) (is_start_marker_2 s)
          (is_start_marker_3 s) (is_start_marker_4 s) (is_start_marker_5 s)
          (FPaperMarkers.is_start_marker_6 ch) (is_start_of_text s) s)
  else if negb (is_start_of_text s) then
    Ok (set_start_flags (is_start_marker s) (is_start_marker_2 s)
          (is_start_marker_3 s) (is_start_marker_4 s) (is_start_marker_5 s)
          (is_start_marker_6 s) (FPaperMarkers.is_start_of_text ch) s)
  else
    (* [elif self.is_start_of_text]: always taken here *)
    if FPaperMarkers.is_style_marker ch then
      Ok (set_is_style_marker true s)
    else if FPaperMarkers.is_end_of_text ch then
      Ok (set_is_end_of_text true s)
    else if is_align s then
      c <- Py.decode_utf8 ch ;;
      Ok (set_get_align_text (Py.add_char (get_align_text s) c) s)
    else
      c <- Py.decode_utf8 ch ;;
      Ok (emit (String c EmptyString) s).

(** The [while byte:] loop of [extract], over the bytes that the
    successive [file.read(1)] return. *)
Fixpoint read_loop (env : Env) (bytes : list byte) (s : t) : result t :=
  match bytes with
  | [] => Ok s
  | byte :: rest =>
      if is_end_of_text s then Ok s
      else s1 <- detect env byte s ;; read_loop env rest s1
  end.

(** [def extract(self)]: [file] is the content of the file named
    [self.filename], or [None] when [open] fails. *)
Definition extract (env : Env) (file : option (list byte)) (s : t)
  : result (string * t) :=
  match file with
  | None => Raise OSError
  | Some bytes =>
      s1 <- read_loop env bytes s ;;
      Ok (extracted_text s1, s1)
  end.

(** [FPaper_Extract(filename).extract()]: the decoder as the pager calls
    it, on a fresh object. *)
Definition decode (env : Env) (file : option (list byte)) : result string :=
  r <- extract env file (init env) ;; Ok (fst r).

End FPaper_Extract.

(** ** Binary64 arithmetic, as far as the pager uses it *)

(** [Totem.__down__] is a Python [float] (an IEEE-754 binary64 number): it
    is assigned [self.__h__ / 3.95] and then changed by [+= 1] and [-= 1].
    A finite binary64 number is a rational, and each operation returns the
    exact result rounded to the nearest representable number, ties to the
    even significand.  The results of this program are finite and far below
    the overflow threshold (the quotient is at most [65535 / 3.95], and
    [x + 1] is only computed for an [x] below the number of lines), so
    infinities and NaN do not occur and are not represented. *)
Module Float64.

(** [floor (log2 (a / b))] *)
Definition ilog2 (a b : positive) : Z :=
  let e0 := Z.log2 (Zpos a) - Z.log2 (Zpos b) in
  let le_quot :=
    if 0 <=? e0 then Zpos b * 2 ^ e0 <=? Zpos a
    else Zpos b <=? Zpos a * 2 ^ (- e0) in
  if le_quot then e0 else e0 - 1.

(** The integer nearest to [num / den], ties to even ([0 < den]). *)
Definition rne (num den : Z) : Z :=
  let q := num / den in
  let r := num mod den in
  match 2 * r ?= den with
  | Lt => q
  | Gt => q + 1
  | Eq => if Z.even q then q else q + 1
  end.

(** Rounding of [a / b]: the result is [m * 2 ^ (- s)] for an integer
    significand [m] of at most 53 bits; [s] is capped at 1074, the
    exponent of the subnormal numbers. *)
Definition round_pos (a b : positive) : Q :=
  let e := ilog2 a b in
  let s := Z.min (52 - e) 1074 in
  if 0 <=? s
  then Qmake (rne (Zpos a * 2 ^ s) (Zpos b)) (Z.to_pos (2 ^ s))
  else inject_Z (rne (Zpos a) (Zpos b * 2 ^ (- s)) * 2 ^ (- s)).

Definition round (x : Q) : Q :=
  match Qnum x with
  | Z0 => 0%Q
  | Zpos a => round_pos a (Qden x)
  | Zneg a => Qopp (round_pos a (Qden x))
  end.

(** The literal [3.95] *)
Definition f3_95 : Q := round (395 # 100).

(** [h / 3.95] for an [int] [h]: [h] is converted (exactly, for
    [|h| <= 2^53]) and the quotient is rounded. *)
Definition div_3_95 (h : Z) : Q := round (inject_Z h / f3_95).

(** [x + 1] and [x - 1] for a [float] [x] *)
Definition add1 (x : Q) : Q := round (x + 1).
Definition sub1 (x : Q) : Q := round (x - 1).

(** [x < n] for a [float] [x] and an [int] [n]: Python compares the two
    exactly. *)
Definition lt_int (x : Q) (n : Z) : bool := negb (Qle_bool (inject_Z n) x).

End Float64.

(** *** Binary64 as the Standard Library specifies it

    [SpecFloat] defines the IEEE-754 operations on [spec_float]; with a
    precision of 53 bits and a maximal exponent of 1024 they are those of
    binary64.  They serve to test [Float64.round] on the values of this
    program. *)
Module SF64.

Definition of_Z (z : Z) : spec_float := binary_normalize 53 1024 z 0 false.

Definition f3_95 : spec_float := SFdiv 53 1024 (of_Z 395) (of_Z 100).

Definition to_Q (f : spec_float) : option Q :=
  match f with
  | S754_zero _ => Some 0%Q
  | S754_finite sign m e =>
      let v :=
        if 0 <=? e then inject_Z (Zpos m * 2 ^ e)
        else Qmake (Zpos m) (Z.to_pos (2 ^ (- e))) in
      Some (if sign then Qopp v else v)
  | S754_infinity _ => None
  | S754_nan => None
  end.

Definition agrees (x : Q) (f : spec_float) : bool :=
  match to_Q f with
  | Some y => Qeq_bool x y
  | None => false
  end.

(** [x] and [f] agree, and still do after each of [n] applications of
    [step] and [stepf]. *)
Fixpoint agree_along (n : nat) (step : Q -> Q)
         (stepf : spec_float -> spec_float) (x : Q) (f : spec_float) : bool :=
  agrees x f &&
  match n with
  | O => true
  | S n' => agree_along n' step stepf (step x) (stepf f)
  end.

End SF64.

(** ** [class Totem] *)

Module Totem.

Definition is_cr (c : ascii) : bool := Ascii.eqb c (ascii_of_byte x0d).
Definition is_lf (c : ascii) : bool := Ascii.eqb c (ascii_of_byte x0a).

(** The line boundaries of [str.splitlines] among the code points below
    256, other than ['\r'] and ['\n']: VT, FF, FS, GS, RS and NEL. *)
Definition is_other_linebreak (c : ascii) : bool :=
  existsb (fun b => Ascii.eqb c (ascii_of_byte b))
          [x0b; x0c; x1c; x1d; x1e; x85].

(** [str.splitlines()]: [cur] is the line being read. *)
Fixpoint splitlines_from (cur : string) (s : string) : list string :=
  match s with
  | EmptyString => if String.eqb cur "" then [] else [cur]
  | String c rest =>
      if is_cr c then
        match rest with
        | String c2 rest2 =>
            if is_lf c2 then cur :: splitlines_from "" rest2
            else cur :: splitlines_from "" rest
        | EmptyString => [cur]
        end
      else if is_lf c || is_other_linebreak c then
        cur :: splitlines_from "" rest
      else splitlines_from (Py.add_char cur c) rest
  end.

Definition splitlines (s : string) : list string := splitlines_from "" s.

(** The attributes of a [Totem] object that the keyboard loop reads or
    writes.  [__down__] is an [int] after [__init__] and a [float] from
    [init_buffer] on; both are rationals here. *)
Record t : Type := {
  file_data : string;
  up__ : Z;
  down__ : Q;
  full_length__ : Z;
  w__ : Z;
  h__ : Z
}.

Definition set_up_down (u : Z) (d : Q) (s : t) : t :=
  {| file_data := file_data s; up__ := u; down__ := d;
     full_length__ := full_length__ s; w__ := w__ s; h__ := h__ s |}.

(** [def __init__(self, filename)]: as in [FPaper_Extract], [__w__] is
    bound to the rows and [__h__] to the columns. *)
Definition init (env : Env) (file : option (list byte)) : result t :=
  data <- FPaper_Extract.decode env file ;;
  let down := Z.of_nat (List.length (splitlines data)) in
  let '(w, h) := get_terminal_size env in
  Ok {| file_data := data; up__ := 0; down__ := inject_Z down;
        full_length__ := down; w__ := w; h__ := h |}.

(** [ch.lower() == 'q'] *)
Definition is_quit (ch : ascii) : bool :=
  Ascii.eqb ch "q" || Ascii.eqb ch "Q".

(** The two [if ch == ...] blocks at the end of the loop body. *)
Definition scroll (ch : ascii) (s : t) : t :=
  if Ascii.eqb ch "A" then
    if 1 <=? up__ s
    then set_up_down (up__ s - 1) (Float64.sub1 (down__ s)) s
    else s
  else if Ascii.eqb ch "B" then
    if Float64.lt_int (down__ s) (full_length__ s)
    then set_up_down (up__ s + 1) (Float64.add1 (down__ s)) s
    else s
  else s.

(** Where the loop stands once the keys typed so far are used up: it has
    left through [break], with some keys unread, or it is blocked in
    [getchar]. *)
Inductive outcome : Type :=
| Quit (s : t) (unread : list ascii)
| Reading (s : t).

Definition state_of (o : outcome) : t :=
  match o with
  | Quit s _ => s
  | Reading s => s
  end.

(** The [while True:] loop of [init_buffer]; [keys] are the characters
    that the successive [getchar()] return. *)
Fixpoint key_loop (keys : list ascii) (s : t) : outcome :=
  match keys with
  | [] => Reading s
  | ch :: keys1 =>
      if is_quit ch then Quit s keys1
      else
        match keys1 with
        | [] => Reading s
        | _ :: keys2 =>
            match keys2 with
            | [] => Reading s
            | ch3 :: keys3 => key_loop keys3 (scroll ch3 s)
            end
        end
  end.

(** [def init_buffer(self)] *)
Definition init_buffer (keys : list ascii) (s : t) : outcome :=
  key_loop keys (set_up_down (up__ s) (Float64.div_3_95 (h__ s)) s).

(** [Totem(filename).init_buffer()], the two statements that end the
    script. *)
Definition run (env : Env) (file : option (list byte)) (keys : list ascii)
  : result outcome :=
  s <- init env file ;; Ok (init_buffer keys s).

End Totem.

(** ** The terminal *)

(** [termios.tcgetattr] returns the list
    [[iflag, oflag, cflag, lflag, ispeed, ospeed, cc]]. *)
Module Termios.

Record attrs : Type := {
  iflag : Z;
  oflag : Z;
  cflag : Z;
  lflag : Z;
  ispeed : Z;
  ospeed : Z;
  cc : list Z
}.

(** [termios.ECHO] *)
Definition ECHO : Z := 8.

(** [a[3] = v] *)
Definition set_lflag (v : Z) (a : attrs) : attrs :=
  {| iflag := iflag a; oflag := oflag a; cflag := cflag a; lflag := v;
     ispeed := ispeed a; ospeed := ospeed a; cc := cc a |}.

End Termios.

(** The terminal of the process: what has been printed to it and the
    attributes of its line discipline. *)
Record terminal : Type := {
  screen : string;
  tty_attrs : Termios.attrs
}.

(** [print(end=text)] *)
Definition print_end (text : string) (term : terminal) : terminal :=
  {| screen := screen term ++ text; tty_attrs := tty_attrs term |}.

(** [termios.tcsetattr(sys.stdin.fileno(), when, a)] *)
Definition tcsetattr (a : Termios.attrs) (term : terminal) : terminal :=
  {| screen := screen term; tty_attrs := a |}.

(** ** [class Totem], with the terminal *)

(** The methods of [Totem] that print or change the terminal, and
    [init_buffer] with them.  [Totem.t] holds the viewport; the two copies
    of the terminal attributes that [__init__] takes are added here. *)
Module TotemIO.

Record t : Type := {
  pager : Totem.t;
  old__ : Termios.attrs;
  new__ : Termios.attrs
}.

(** [def refresh()] *)
Definition refresh (term : terminal) : terminal :=
  print_end (String ESC "[2J") term.

(** [def clear()] *)
Definition clear (term : terminal) : terminal :=
  print_end (String ESC "[H") (refresh term).

(** [def to_up()] *)
Definition to_up (term : terminal) : terminal :=
  print_end (String ESC "[0A") term.

(** [def up_to(n)] *)
Definition up_to (n : Z) (term : terminal) : terminal :=
  print_end (String ESC "[" ++ Py.str n ++ "A") term.

(** [def disable_cursor()] and [def enable_cursor()] *)
Definition disable_cursor (term : terminal) : terminal :=
  print_end (String ESC "[?25l") term.

Definition enable_cursor (term : terminal) : terminal :=
  print_end (String ESC "[?25h") term.

(** [i < x] for an [int] [i] and a [float] [x] *)
Definition int_lt_float (i : Z) (x : Q) : bool :=
  negb (Qle_bool x (inject_Z i)).

(** [f'{line}\n'] *)
Definition line_nl (line : string) : string :=
  line ++ String (ascii_of_byte x0a) "".

(** The loop of [__from__] for [is_up]: [i] is not incremented in the
    loop (the [i += 1] stands after it). *)
Fixpoint from_up_loop (lines : list string) (i up : Z) (new : string)
  : string :=
  match lines with
  | [] => new
  | line :: rest =>
      from_up_loop rest i up
        (if up <=? i then new ++ line_nl line else new)
  end.

(** The loop of [__from__] for [not is_up]. *)
Fixpoint from_down_loop (lines : list string) (i : Z) (down : Q)
         (new : string) : string :=
  match lines with
  | [] => new
  | line :: rest =>
      from_down_loop rest (i + 1) down
        (if int_lt_float i down then new ++ line_nl line else new)
  end.

(** [def __from__(self, is_up)] *)
Definition from__ (is_up : bool) (self : Totem.t) (term : terminal)
  : terminal :=
  let lines := Totem.splitlines (Totem.file_data self) in
  let new :=
    if is_up then from_up_loop lines 0 (Totem.up__ self) ""
    else from_down_loop lines 0 (Totem.down__ self) "" in
  up_to (Totem.up__ self) (print_end new (clear term)).

(** [def __init__(self, filename)]: the two [tcgetattr] come last. *)
Definition init (env : Env) (file : option (list byte)) (term : terminal)
  : result t :=
  p <- Totem.init env file ;;
  Ok {| pager := p; old__ := tty_attrs term; new__ := tty_attrs term |}.

(** The two [if ch == ...] blocks at the end of the loop body, with the
    redrawing. *)
Definition scroll (ch : ascii) (p : Totem.t) (term : terminal)
  : Totem.t * terminal :=
  if Ascii.eqb ch "A" then
    if 1 <=? Totem.up__ p then
      let p1 :=
        Totem.set_up_down (Totem.up__ p - 1)
          (Float64.sub1 (Totem.down__ p)) p in
      (p1, from__ false p1 term)
    else (p, term)
  else if Ascii.eqb ch "B" then
    if Float64.lt_int (Totem.down__ p) (Totem.full_length__ p) then
      let p1 :=
        Totem.set_up_down (Totem.up__ p + 1)
          (Float64.add1 (Totem.down__ p)) p in
      (p1, from__ false p1 term)
    else (p, term)
  else (p, term).

Inductive outcome : Type :=
| Quit (self : t) (term : terminal) (unread : list ascii)
| Reading (self : t) (term : terminal).

Section Loop.

(** What [tty.setraw] makes of the attributes of the terminal. *)
Variable setraw : Termios.attrs -> Termios.attrs.

(** [getchar()] saves the attributes, sets the raw mode, reads one
    character and restores the attributes: once it has returned the
    terminal is as before, and while it waits for a character the
    terminal is in raw mode. *)
Definition waiting (term : terminal) : terminal :=
  tcsetattr (setraw (tty_attrs term)) term.

(** The [while True:] loop of [init_buffer]: it ends with the viewport,
    the terminal and, when it was left through [break], the keys that
    were not read. *)
Fixpoint key_loop (keys : list ascii) (p : Totem.t) (term : terminal)
  : Totem.t * terminal * option (list ascii) :=
  match keys with
  | [] => (p, waiting term, None)
  | ch :: keys1 =>
      if Totem.is_quit ch then (p, term, Some keys1)
      else
        match keys1 with
        | [] => (p, waiting term, None)
        | _ :: keys2 =>
            match keys2 with
            | [] => (p, waiting term, None)
            | ch3 :: keys3 =>
                let '(p1, term1) := scroll ch3 p term in
                key_loop keys3 p1 term1
            end
        end
  end.

(** [def init_buffer(self)]: the [finally] block runs when the loop is
    left. *)
Definition init_buffer (keys : list ascii) (self : t) (term : terminal)
  : outcome :=
  let term1 := to_up (clear term) in
  let p1 :=
    Totem.set_up_down (Totem.up__ (pager self))
      (Float64.div_3_95 (Totem.h__ (pager self))) (pager self) in
  let term2 := disable_cursor (from__ false p1 term1) in
  let new1 :=
    Termios.set_lflag
      (Z.land (Termios.lflag (new__ self)) (Z.lnot Termios.ECHO))
      (new__ self) in
  let term3 := tcsetattr new1 term2 in
  match key_loop keys p1 term3 with
  | (p2, term4, Some unread) =>
      Quit {| pager := p2; old__ := old__ self; new__ := new1 |}
           (tcsetattr (old__ self) (clear (enable_cursor term4)))
           unread
  | (p2, term4, None) =>
      Reading {| pager := p2; old__ := old__ self; new__ := new1 |} term4
  end.

(** [Totem(filename).init_buffer()] *)
Definition run (env : Env) (file : option (list byte)) (keys : list ascii)
           (term : terminal) : result outcome :=
  self <- init env file term ;; Ok (init_buffer keys self term).

End Loop.

End TotemIO.

(** ** Documents and environments used in the statements *)

(** The six bytes of the prologue, and the prologue followed by the
    start-of-text byte. *)
Definition prologue : list byte :=
  [FPaperMarkers.START_MARKER; FPaperMarkers.START_MARKER_2;
   FPaperMarkers.START_MARKER_3; FPaperMarkers.START_MARKER_4;
   FPaperMarkers.START_MARKER_5; FPaperMarkers.START_MARKER_6].

Definition header : list byte := prologue ++ [FPaperMarkers.START_OF_TEXT].

(** A terminal of 24 rows and 80 columns, on Linux. *)
Definition term_24x80 : Env :=
  {| ws_row := 24; ws_col := 80; platform_system := "Linux" |}.

(** [n] space characters *)
Fixpoint spaces (n : nat) : string :=
  match n with
  | O => ""
  | S n' => String " " (spaces n')
  end.

(** The bytes below 128, the ones that [decode('utf-8')] accepts alone. *)
Definition ascii_byte (b : byte) : Prop := (Byte.to_N b < 128)%N.

(** [b ++ suffix] for some [suffix]: [a] is a prefix of [b]. *)
Definition extends (a b : string) : Prop :=
  exists suffix : string, b = (a ++ suffix)%string.

(** ** Strings *)

Lemma append_assoc (a b c : string) :
  ((a ++ b) ++ c = a ++ (b ++ c))%string.
Proof.
  induction a as [|x a IH]; simpl; [reflexivity | now rewrite IH].
Qed.

Lemma append_nil_r (a : string) : (a ++ "" = a)%string.
Proof.
  induction a as [|x a IH]; simpl; [reflexivity | now rewrite IH].
Qed.

Lemma spaces_snoc (n : nat) : (spaces n ++ " " = spaces (S n))%string.
Proof.
  induction n as [|n IH]; simpl; [reflexivity|].
  simpl in IH. now rewrite IH.
Qed.

Lemma add_spaces_spec (n : nat) (s : string) :
  Py.add_spaces n s = (s ++ spaces n)%string.
Proof.
  revert s. induction n as [|n IH]; intros s; simpl.
  - now rewrite append_nil_r.
  - rewrite IH, append_assoc. reflexivity.
Qed.

Lemma extends_refl (a : string) : extends a a.
Proof. exists ""%string. now rewrite append_nil_r. Qed.

Lemma extends_trans (a b c : string) :
  extends a b -> extends b c -> extends a c.
Proof.
  intros [u ->] [v ->]. exists (u ++ v)%string. apply append_assoc.
Qed.

Lemma extends_append (a v : string) : extends a (a ++ v).
Proof. now exists v. Qed.

Lemma extends_add_spaces (n : nat) (a : string) :
  extends a (Py.add_spaces n a).
Proof. rewrite add_spaces_spec. apply extends_append. Qed.

Create HintDb text.

#[local] Hint Resolve extends_refl extends_append extends_add_spaces : text.

(** ** The decoder, byte by byte *)

Section Decoder.

Import FPaper_Extract.

Variable env : Env.

Lemma extends_left (width : Z) (text : string) (s : t) :
  extends (extracted_text s) (extracted_text (left width text s)).
Proof.
  unfold left, emit; simpl.
  eapply extends_trans; [apply extends_append | apply extends_add_spaces].
Qed.

Lemma extends_center (width : Z) (text : string) (s : t) :
  extends (extracted_text s) (extracted_text (center width text s)).
Proof.
  unfold center, emit; simpl.
  eapply extends_trans; [apply extends_add_spaces|].
  eapply extends_trans; [apply extends_append | apply extends_add_spaces].
Qed.

Lemma extends_right (width : Z) (text : string) (s : t) :
  extends (extracted_text s) (extracted_text (right width text s)).
Proof.
  unfold right, emit; simpl.
  eapply extends_trans; [apply extends_add_spaces | apply extends_append].
Qed.

(** A style argument either completes and only appends to the text, or
    it is a byte of 128 or more that [decode] rejects. *)
Lemma detect_style_extends (ch : byte) (s : t) :
  match detect_style env ch s with
  | Ok s' => extends (extracted_text s) (extracted_text s')
  | Raise _ => (128 <= Byte.to_N ch)%N
  end.
Proof.
  unfold detect_style, Py.decode_utf8, bind.
  repeat match goal with
         | |- context [if ?b then _ else _] => destruct b eqn:?
         end;
    simpl; auto with text;
    try apply extends_center; try apply extends_left;
    try apply extends_right.
  now apply N.ltb_ge.
Qed.

Lemma detect_extends (ch : byte) (s : t) :
  match detect env ch s with
  | Ok s' => extends (extracted_text s) (extracted_text s')
  | Raise _ => (128 <= Byte.to_N ch)%N
  end.
Proof.
  unfold detect.
  destruct (is_style_marker s).
  - pose proof (detect_style_extends ch s) as H.
    destruct (detect_style env ch s); simpl; exact H.
  - unfold Py.decode_utf8, bind.
    repeat match goal with
           | |- context [if ?b then _ else _] => destruct b eqn:?
           end;
      simpl; auto with text;
      now apply N.ltb_ge.
Qed.

(** A byte below 128 never makes [detect] raise. *)
Lemma detect_ascii (ch : byte) (s : t) :
  ascii_byte ch -> exists s', detect env ch s = Ok s'.
Proof.
  intros Hch. pose proof (detect_extends ch s) as H.
  destruct (detect env ch s) as [s'|e].
  - now exists s'.
  - unfold ascii_byte in Hch. lia.
Qed.

Lemma read_loop_done (bytes : list byte) (s : t) :
  is_end_of_text s = true -> read_loop env bytes s = Ok s.
Proof. intros H. destruct bytes; simpl; [reflexivity | now rewrite H]. Qed.

Lemma read_loop_app (a b : list byte) (s : t) :
  read_loop env (a ++ b) s =
  (s1 <- read_loop env a s ;; read_loop env b s1).
Proof.
  revert s. induction a as [|x a IH]; intros s; simpl; [reflexivity|].
  destruct (is_end_of_text s) eqn:E; simpl.
  - symmetry. now apply read_loop_done.
  - destruct (detect env x s) as [s1|e]; simpl; [apply IH | reflexivity].
Qed.

Lemma read_loop_ascii (bytes : list byte) (s : t) :
  Forall ascii_byte bytes -> exists s', read_loop env bytes s = Ok s'.
Proof.
  intros H. revert s. induction H as [|x l Hx Hl IH]; intros s; simpl.
  - now exists s.
  - destruct (is_end_of_text s); [now exists s|].
    destruct (detect_ascii x s Hx) as [s1 ->]. simpl. apply IH.
Qed.

(** [detect] raises nothing but [UnicodeDecodeError]. *)
Lemma detect_raises (ch : byte) (s : t) (e : exn) :
  detect env ch s = Raise e -> e = UnicodeDecodeError.
Proof.
  unfold detect, detect_style, Py.decode_utf8, bind. intros E.
  repeat match type of E with
         | context [if ?b then _ else _] => destruct b
         end; try discriminate; now injection E as <-.
Qed.

(** When the loop raises, it is [UnicodeDecodeError], on a byte of 128 or
    more. *)
Lemma read_loop_raises (bytes : list byte) (s : t) (e : exn) :
  read_loop env bytes s = Raise e ->
  e = UnicodeDecodeError /\
  Exists (fun b => (128 <= Byte.to_N b)%N) bytes.
Proof.
  revert s. induction bytes as [|x l IH]; intros s H; simpl in H.
  - discriminate.
  - destruct (is_end_of_text s); [discriminate|].
    pose proof (detect_extends x s) as Hx.
    destruct (detect env x s) as [s1|e1] eqn:E; simpl in H.
    + destruct (IH s1 H) as [He Hl]. split; [exact He | now right].
    + injection H as <-. split; [now apply (detect_raises x s) | now left].
Qed.

(** *** The prologue *)

Definition start_flags (s : t) : list bool :=
  [is_start_marker s; is_start_marker_2 s; is_start_marker_3 s;
   is_start_marker_4 s; is_start_marker_5 s; is_start_marker_6 s;
   is_start_of_text s].

(** The decoder has matched the first [k] bytes of [header] and has done
    nothing else yet. *)
Definition awaiting (k : nat) (s : t) : Prop :=
  start_flags s = repeat true k ++ repeat false (7 - k) /\
  is_style_marker s = false /\ is_end_of_text s = false /\
  is_align s = false /\ extracted_text s = ""%string.

Lemma awaiting_init : awaiting 0 (init env).
Proof. unfold awaiting, init; simpl. auto. Qed.

(** One byte in the prologue: the progress advances when the byte is the
    expected one and stalls otherwise. *)
Lemma detect_awaiting (k : nat) (ch : byte) (s : t) :
  (k < 7)%nat -> awaiting k s ->
  exists s', detect env ch s = Ok s' /\
             awaiting (if Byte.eqb ch (nth k header x00) then S k else k) s'.
Proof.
  intros Hk (Hf & Hs & He & Ha & Ht).
  destruct s; unfold start_flags in Hf; simpl in *.
  do 7 (destruct k as [|k];
        [ simpl in Hf; injection Hf as -> -> -> -> -> -> ->; subst;
          unfold detect; simpl;
          eexists; split; [reflexivity|];
          unfold FPaperMarkers.is_start_marker,
            FPaperMarkers.is_start_marker_2, FPaperMarkers.is_start_marker_3,
            FPaperMarkers.is_start_marker_4, FPaperMarkers.is_start_marker_5,
            FPaperMarkers.is_start_marker_6, FPaperMarkers.is_start_of_text;
          match goal with
          | |- context [Byte.eqb ch ?m] =>
              change (nth _ header x00) with m;
              destruct (Byte.eqb ch m)
          end;
          unfold awaiting, start_flags; simpl; auto 6
        | ]).
  lia.
Qed.

(** Any [n] bytes advance the progress by at most [n]. *)
Lemma read_loop_awaiting (bytes : list byte) (p : nat) (s : t) :
  (p + List.length bytes <= 7)%nat -> awaiting p s ->
  exists s' p', read_loop env bytes s = Ok s' /\ awaiting p' s' /\
                (p' <= p + List.length bytes)%nat.
Proof.
  revert p s. induction bytes as [|x l IH]; intros p s Hlen Hs; simpl in *.
  - exists s, p. split; [reflexivity | split; [exact Hs | lia]].
  - pose proof Hs as (Hf & Hst & He & Hrest). rewrite He.
    destruct (detect_awaiting p x s) as (s1 & -> & H1);
      [lia | exact Hs |]. simpl.
    destruct (Byte.eqb x (nth p header x00)).
    + destruct (IH (S p) s1) as (s' & p' & -> & H' & Hle); [lia | exact H1 |].
      exists s', p'. split; [reflexivity | split; [exact H' | lia]].
    + destruct (IH p s1) as (s' & p' & -> & H' & Hle); [lia | exact H1 |].
      exists s', p'. split; [reflexivity | split; [exact H' | lia]].
Qed.

(** While the byte expected at progress [k] does not come, the progress
    stays at [k] or below. *)
Lemma read_loop_stalls (k : nat) (bytes : list byte) (p : nat) (s : t) :
  (k < 6)%nat -> (p <= k)%nat ->
  Forall (fun b => b <> nth k header x00) bytes ->
  awaiting p s ->
  exists s' p', read_loop env bytes s = Ok s' /\ awaiting p' s' /\
                (p' <= k)%nat.
Proof.
  intros Hk Hp Hall. revert p s Hp.
  induction Hall as [|x l Hx Hl IH]; intros p s Hp Hs; simpl.
  - exists s, p. auto.
  - pose proof Hs as (Hf & Hst & He & Hrest). rewrite He.
    destruct (detect_awaiting p x s) as (s1 & -> & H1);
      [lia | exact Hs |]. simpl.
    destruct (Byte.eqb x (nth p header x00)) eqn:E.
    + apply (IH (S p) s1); [|exact H1].
      apply Byte.byte_dec_bl in E.
      destruct (Nat.eq_dec p k) as [->|]; [contradiction | lia].
    + now apply (IH p s1).
Qed.

(** *** Alignment *)

(** Style arguments and alignment only occur in the text region. *)
Definition in_text_if_styled (s : t) : Prop :=
  is_align s = true \/ is_style_marker s = true ->
  start_flags s = repeat true 7.

Lemma detect_in_text_if_styled (ch : byte) (s s' : t) :
  in_text_if_styled s -> detect env ch s = Ok s' -> in_text_if_styled s'.
Proof.
  unfold in_text_if_styled, detect, detect_style, Py.decode_utf8, bind.
  intros Hinv H.
  destruct s; unfold start_flags in *; simpl in *.
  repeat match type of H with
         | context [if ?b then _ else _] => destruct b eqn:?
         end;
    simpl in *; try discriminate;
    injection H as <-; simpl; intros [?|?]; try discriminate;
    unfold left, center, right, emit; simpl;
    try solve [ reflexivity | apply Hinv; auto | congruence ].
  (* the prologue branches: an active alignment contradicts the branch *)
  1-7: match goal with
       | Ha : ?a = true, Hi : ?a = true \/ _ -> _ |- _ =>
           specialize (Hi (or_introl Ha));
           injection Hi; intros; subst; discriminate
       end.
  (* the text region: every flag was tested *)
  repeat match goal with
         | Hb : negb ?b = false |- _ =>
             destruct b; [clear Hb | discriminate Hb]
         end.
  reflexivity.
Qed.

Lemma read_loop_in_text_if_styled (bytes : list byte) (s s' : t) :
  in_text_if_styled s -> read_loop env bytes s = Ok s' ->
  in_text_if_styled s'.
Proof.
  revert s. induction bytes as [|x l IH]; intros s Hinv H; simpl in H.
  - now injection H as <-.
  - destruct (is_end_of_text s); [now injection H as <-|].
    destruct (detect env x s) as [s1|e] eqn:E; simpl in H; [|discriminate].
    eapply IH; [|exact H]. eapply detect_in_text_if_styled; eauto.
Qed.

Lemma in_text_if_styled_init : in_text_if_styled (init env).
Proof. intros [H|H]; discriminate H. Qed.

(** A literal byte of the text region: neither of the two markers that
    the text region recognises, and a character on its own. *)
Definition literal (b : byte) : Prop :=
  ascii_byte b /\ b <> FPaperMarkers.STYLE_MARKER /\
  b <> FPaperMarkers.END_OF_TEXT.

Lemma eqb_neq (a b : byte) : a <> b -> Byte.eqb a b = false.
Proof.
  intros H. destruct (Byte.eqb a b) eqn:E; [|reflexivity].
  now apply Byte.byte_dec_bl in E.
Qed.

(** While an alignment is active, literal bytes go to the scratch buffer
    and to nothing else. *)
Lemma read_loop_aligned (lits : list byte) (s : t) :
  start_flags s = repeat true 7 ->
  is_style_marker s = false -> is_end_of_text s = false ->
  is_align s = true ->
  Forall literal lits ->
  read_loop env lits s =
  Ok (set_get_align_text
        (get_align_text s ++ string_of_list_byte lits) s).
Proof.
  intros Hf Hs He Ha Hall. revert s Hf Hs He Ha.
  induction Hall as [|x l (Hx & Hx1 & Hx2) Hl IH]; intros s Hf Hs He Ha.
  - simpl. rewrite append_nil_r. now destruct s.
  - simpl. rewrite He.
    destruct s; unfold start_flags in Hf; simpl in *.
    injection Hf as -> -> -> -> -> -> ->; subst.
    unfold detect; simpl.
    unfold FPaperMarkers.is_style_marker, FPaperMarkers.is_end_of_text.
    rewrite (eqb_neq _ _ Hx1), (eqb_neq _ _ Hx2).
    unfold Py.decode_utf8.
    unfold ascii_byte in Hx. apply N.ltb_lt in Hx. rewrite Hx. simpl.
    rewrite IH; try reflexivity.
    unfold set_get_align_text, Py.add_char; simpl.
    rewrite append_assoc. reflexivity.
Qed.

(** *** The scratch buffer and the text *)

(** What follows an alignment marker, up to the end of the stream: literal
    bytes, and style markers with their argument. *)
Inductive item : Type :=
| Lit (b : byte)
| Style (arg : byte).

Definition bytes_of (i : item) : list byte :=
  match i with
  | Lit b => [b]
  | Style arg => [FPaperMarkers.STYLE_MARKER; arg]
  end.

Definition is_style (i : item) : bool :=
  match i with
  | Lit _ => false
  | Style _ => true
  end.

(** A literal is a literal byte, and a style argument is any byte but
    reset-alignment, which would flush the scratch buffer. *)
Definition item_ok (i : item) : Prop :=
  match i with
  | Lit b => literal b
  | Style arg => arg <> FPaperMarkers.ALIGN_RESET
  end.

(** Two decoders that differ at most in their scratch buffers. *)
Definition same_but_scratch (a b : t) : Prop :=
  set_get_align_text "" a = set_get_align_text "" b.

(** The decoder is in the text region with an alignment active, no style
    argument pending and the end of the text not seen. *)
Definition aligned (s : t) : Prop :=
  start_flags s = repeat true 7 /\ is_style_marker s = false /\
  is_end_of_text s = false /\ is_align s = true.

Definition text_of (r : result t) : result string :=
  s <- r ;; Ok (extracted_text s).

Lemma same_but_scratch_text (a b : t) :
  same_but_scratch a b -> extracted_text a = extracted_text b.
Proof.
  intros H. change (extracted_text (set_get_align_text "" a)
                    = extracted_text (set_get_align_text "" b)).
  now rewrite H.
Qed.

Lemma same_but_scratch_aligned (a b : t) :
  same_but_scratch a b -> aligned a -> aligned b.
Proof.
  unfold same_but_scratch, aligned, start_flags.
  destruct a, b; simpl. intros H. injection H; intros; subst.
  assumption.
Qed.

(** But for reset-alignment, a style argument does not read the scratch
    buffer. *)
Lemma detect_style_no_reset (arg : byte) (a b : t) :
  arg <> FPaperMarkers.ALIGN_RESET -> same_but_scratch a b ->
  match detect_style env arg a, detect_style env arg b with
  | Ok x, Ok y => same_but_scratch x y
  | Raise e, Raise e' => e = e'
  | _, _ => False
  end.
Proof.
  intros Harg H. unfold same_but_scratch in *.
  destruct a, b; simpl in H. injection H; intros; subst.
  unfold detect_style, Py.decode_utf8, bind.
  unfold FPaperMarkers.is_reset_align. rewrite (eqb_neq _ _ Harg).
  repeat match goal with
         | |- context [if ?c then _ else _] => destruct c
         end; reflexivity.
Qed.

(** But for reset-alignment, a style argument leaves an alignment
    active; it touches neither the flags of the prologue nor the
    end-of-text flag. *)
Lemma detect_style_aligned (arg : byte) (a x : t) :
  arg <> FPaperMarkers.ALIGN_RESET ->
  detect_style env arg a = Ok x -> aligned (set_is_style_marker false a) ->
  aligned (set_is_style_marker false x).
Proof.
  intros Harg H (Hf & Hs & He & Ha). revert H.
  unfold detect_style, Py.decode_utf8, bind.
  unfold FPaperMarkers.is_reset_align. rewrite (eqb_neq _ _ Harg).
  unfold aligned, start_flags in *. destruct a; simpl in *.
  repeat match goal with
         | |- context [if ?c then _ else _] => destruct c
         end; intros H; try discriminate; injection H as <-; simpl; auto.
Qed.

Lemma same_but_scratch_style_marker (v : bool) (a b : t) :
  same_but_scratch a b ->
  same_but_scratch (set_is_style_marker v a) (set_is_style_marker v b).
Proof.
  unfold same_but_scratch. destruct a, b; simpl.
  intros H. injection H; intros; subst. reflexivity.
Qed.

Lemma aligned_style_marker (s : t) :
  aligned s -> aligned (set_is_style_marker false (set_is_style_marker true s)).
Proof. unfold aligned, start_flags. destruct s; simpl. tauto. Qed.

Lemma detect_literal (b : byte) (s : t) :
  aligned s -> literal b ->
  exists s', detect env b s = Ok s' /\ aligned s' /\ same_but_scratch s' s.
Proof.
  intros (Hf & Hs & He & Ha) Hb.
  pose proof (read_loop_aligned [b] s Hf Hs He Ha
                (Forall_cons b Hb (Forall_nil _))) as H.
  simpl in H. rewrite He in H.
  destruct (detect env b s) as [s'|e]; simpl in H; [|discriminate].
  injection H as ->. eexists. split; [reflexivity|].
  unfold aligned, same_but_scratch, start_flags in *.
  destruct s; simpl in *. auto.
Qed.

Lemma detect_style_marker (s : t) :
  aligned s ->
  detect env FPaperMarkers.STYLE_MARKER s = Ok (set_is_style_marker true s).
Proof.
  intros (Hf & Hs & He & Ha). unfold detect. rewrite Hs.
  destruct s; unfold start_flags in Hf; simpl in *.
  injection Hf as -> -> -> -> -> -> ->. reflexivity.
Qed.

Lemma detect_end_of_text (s : t) :
  aligned s ->
  detect env FPaperMarkers.END_OF_TEXT s = Ok (set_is_end_of_text true s).
Proof.
  intros (Hf & Hs & He & Ha). unfold detect. rewrite Hs.
  destruct s; unfold start_flags in Hf; simpl in *.
  injection Hf as -> -> -> -> -> -> ->. reflexivity.
Qed.

(** From an active alignment to the end of the stream, the text that the
    loop builds is the same with and without the literal bytes. *)
Lemma read_loop_without_literals (body : list item) (tail : list byte) :
  Forall item_ok body ->
  tail = [] \/ (exists rest, tail = FPaperMarkers.END_OF_TEXT :: rest) ->
  forall a b : t,
    aligned a -> same_but_scratch a b ->
    text_of (read_loop env (flat_map bytes_of body ++ tail) a)
    = text_of (read_loop env
                 (flat_map bytes_of (filter is_style body) ++ tail) b).
Proof.
  intros Hbody Htail.
  induction Hbody as [|i body Hi Hbody IH]; intros a b Ha Hab.
  - pose proof (same_but_scratch_aligned a b Hab Ha) as Hb.
    pose proof (same_but_scratch_text a b Hab) as Ht.
    simpl. destruct Htail as [->|[rest ->]]; simpl.
    + now rewrite Ht.
    + destruct Ha as (Hfa & Hsa & Hea & Haa) eqn:Ea.
      destruct Hb as (Hfb & Hsb & Heb & Hab') eqn:Eb.
      rewrite Hea, Heb.
      rewrite (detect_end_of_text a), (detect_end_of_text b)
        by (unfold aligned; auto).
      simpl. rewrite !read_loop_done by reflexivity. simpl.
      now rewrite Ht.
  - destruct i as [l|arg]; simpl in Hi |- *.
    + destruct (detect_literal l a Ha Hi) as (a' & Hd & Ha' & Hs').
      destruct Ha as (_ & _ & He & _). rewrite He, Hd. simpl.
      apply IH; [exact Ha'|].
      unfold same_but_scratch in *. congruence.
    + pose proof (same_but_scratch_aligned a b Hab Ha) as Hb.
      pose proof Ha as (Hfa & Hsa & Hea & Haa).
      pose proof Hb as (Hfb & Hsb & Heb & Hab').
      rewrite Hea, Heb.
      rewrite (detect_style_marker a Ha), (detect_style_marker b Hb).
      simpl. rewrite Hea, Heb. unfold detect. simpl.
      pose proof (same_but_scratch_style_marker true a b Hab) as Hrel.
      pose proof (detect_style_no_reset arg _ _ Hi Hrel) as Hns.
      destruct (detect_style env arg (set_is_style_marker true a))
        as [x|e] eqn:Ex;
        destruct (detect_style env arg (set_is_style_marker true b))
        as [y|e'] eqn:Ey; try contradiction; simpl.
      * apply IH.
        -- apply (detect_style_aligned arg _ x Hi Ex).
           now apply aligned_style_marker.
        -- now apply same_but_scratch_style_marker.
      * now subst.
Qed.

End Decoder.

(** ** Properties of the decoder *)

Module DecoderSpec.

Import FPaper_Extract.

Lemma decode_read_loop (env : Env) (bytes : list byte) (s : t) :
  read_loop env bytes (init env) = Ok s ->
  decode env (Some bytes) = Ok (extracted_text s).
Proof. intros H. unfold decode, extract. now rewrite H. Qed.

(** *** Failure policy *)

(** C1: [decode] does not complete on every stream.  The header, the two
    bytes C3 A9 that encode one character in UTF-8, and the end-of-text
    marker are a document with well-formed text, and [decode] raises
    [UnicodeDecodeError] on it: [detect] passes each byte on its own to
    [decode('utf-8')], which rejects every byte of 128 or more.  The same
    byte raises as a style argument. *)
Theorem decode_raises_on_utf8_text :
  decode term_24x80
    (Some (header ++ [xc3; xa9] ++ [FPaperMarkers.END_OF_TEXT]))
  = Raise UnicodeDecodeError /\
  decode term_24x80
    (Some (header ++ [FPaperMarkers.STYLE_MARKER; xc3; xa9]
           ++ [FPaperMarkers.END_OF_TEXT]))
  = Raise UnicodeDecodeError.
Proof. split; vm_compute; reflexivity. Qed.

(** A byte that is no part of any UTF-8 text raises as well, in the text
    region and as a style argument that is no shortcut. *)
Lemma decode_raises_on_high_byte :
  decode term_24x80 (Some (header ++ [xff])) = Raise UnicodeDecodeError /\
  decode term_24x80 (Some (header ++ [FPaperMarkers.STYLE_MARKER; xff]))
  = Raise UnicodeDecodeError.
Proof. split; reflexivity. Qed.

(** [decode] raises nothing but [OSError], when the input file cannot be
    opened, and [UnicodeDecodeError], which needs a byte of 128 or more
    in the stream. *)
Lemma decode_failure_policy (env : Env) (bytes : list byte) :
  decode env None = Raise OSError /\
  ((exists text : string, decode env (Some bytes) = Ok text) \/
   (decode env (Some bytes) = Raise UnicodeDecodeError /\
    Exists (fun b => (128 <= Byte.to_N b)%N) bytes)).
Proof.
  split; [reflexivity|].
  destruct (read_loop env bytes (init env)) as [s|e] eqn:E.
  - left. exists (extracted_text s). now apply decode_read_loop.
  - right. destruct (read_loop_raises env bytes (init env) e E) as [-> Hex].
    split; [|exact Hex].
    unfold decode, extract. now rewrite E.
Qed.

(** In particular [decode] completes on every stream of bytes below 128. *)
Lemma decode_completes_on_ascii (env : Env) (bytes : list byte) :
  Forall ascii_byte bytes ->
  exists text : string, decode env (Some bytes) = Ok text.
Proof.
  intros H.
  destruct (read_loop_ascii env bytes (init env) H) as [s Hs].
  exists (extracted_text s). now apply decode_read_loop.
Qed.

(** A style argument below 128 that is no shortcut and lies in neither
    range is dropped: the decoder is left as it was. *)
Lemma unknown_style_argument_dropped (env : Env) (ch : byte) (s : t) :
  ascii_byte ch ->
  ~ In ch [x30; x31; x32; x33; x34; x35; x36; x72; x7b; x7c; x7d; x7e] ->
  ~ (40 <= Z.of_N (Byte.to_N ch) <= 49) ->
  ~ (100 <= Z.of_N (Byte.to_N ch) <= 109) ->
  detect_style env ch s = Ok s.
Proof.
  intros Ha Hin H1 H2. unfold ascii_byte in Ha.
  destruct ch; simpl in Ha, H1, H2; try lia;
    try (exfalso; apply Hin; simpl; tauto);
    reflexivity.
Qed.

(** *** Style arguments *)




(** *** The prologue *)

(** C3, as the claim states it, fails: the byte at the first prologue
    position is wrong, the decoder skips it, matches the prologue that
    follows and reaches the text. *)
Lemma wrong_prologue_byte_is_skipped :
  nth 0 (x00 :: header ++ [x41]) x00 <> nth 0 prologue x00 /\
  decode term_24x80 (Some (x00 :: header ++ [x41])) = Ok "A"%string.
Proof. split; [discriminate | reflexivity]. Qed.

(** C3, amended: for every byte stream whose byte at one of the six
    prologue positions [k] differs from the expected prologue byte and in
    which that expected byte does not occur after position [k] either,
    [decode] returns an empty buffer, whatever the other bytes are. *)
Theorem wrong_prologue_byte_never_matched
  (env : Env) (k : nat) (pre : list byte) (b : byte) (rest : list byte) :
  (k < 6)%nat -> List.length pre = k ->
  b <> nth k prologue x00 ->
  ~ In (nth k prologue x00) rest ->
  decode env (Some (pre ++ b :: rest)) = Ok ""%string.
Proof.
  intros Hk Hlen Hb Hrest.
  assert (Hnth : nth k prologue x00 = nth k header x00).
  { unfold header. rewrite app_nth1; [reflexivity | simpl; lia]. }
  rewrite Hnth in Hb, Hrest.
  destruct (read_loop_awaiting env pre 0 (init env)) as (s1 & p1 & H1 & A1 & L1);
    [simpl; lia | apply awaiting_init |].
  destruct (read_loop_stalls env k (b :: rest) p1 s1) as (s2 & p2 & H2 & A2 & _);
    [exact Hk | simpl in L1; lia | | exact A1 |].
  { constructor; [exact Hb|]. apply Forall_forall. intros x Hx ->.
    now apply Hrest. }
  assert (H : read_loop env (pre ++ b :: rest) (init env) = Ok s2).
  { rewrite read_loop_app, H1. exact H2. }
  rewrite (decode_read_loop env _ s2 H).
  destruct A2 as (_ & _ & _ & _ & ->). reflexivity.
Qed.

Lemma wrong_prologue_byte_never_matched_witness :
  decode term_24x80
    (Some ([x02; x46] ++ x51 :: [x61; x67; x65; x26; x41])) = Ok ""%string.
Proof.
  apply (wrong_prologue_byte_never_matched term_24x80 2 [x02; x46] x51
           [x61; x67; x65; x26; x41]).
  - lia.
  - reflexivity.
  - discriminate.
  - simpl. intros [H|[H|[H|[H|[H|[]]]]]]; discriminate H.
Defined.

(** *** Alignment *)

(** The prologue, the start of the text, set-left, the text "hi",
    reset-alignment and the end of the text. *)
Definition left_hi_document : list byte :=
  header ++
  [FPaperMarkers.STYLE_MARKER; FPaperMarkers.ALIGN_LEFT_SET;
   x68; x69;
   FPaperMarkers.STYLE_MARKER; FPaperMarkers.ALIGN_RESET;
   FPaperMarkers.END_OF_TEXT].

(** The padding of a left-aligned text is [__w__] spaces, and [__w__] is
    the number of rows of the terminal. *)
Lemma decode_left_hi (env : Env) :
  decode env (Some left_hi_document)
  = Ok ("hi" ++ spaces (N.to_nat (ws_row env)))%string.
Proof.
  destruct env as [rows cols sys].
  transitivity
    (Ok (A := string) (Py.add_spaces (Py.range_len (Z.of_N rows)) "hi")).
  - vm_compute. reflexivity.
  - unfold Py.range_len. now rewrite add_spaces_spec, <- Z_N_nat, N2Z.id.
Qed.

(** C4: on a terminal of 24 rows and 80 columns the document that sets
    Left alignment, emits "hi" and resets the alignment decodes to "hi"
    followed by 24 spaces, the number of rows, and not by the 80 spaces
    of the terminal width. *)
Theorem left_alignment_pads_with_rows :
  decode term_24x80 (Some left_hi_document) = Ok ("hi" ++ spaces 24)%string /\
  decode term_24x80 (Some left_hi_document)
  <> Ok ("hi" ++ spaces (N.to_nat (ws_col term_24x80)))%string.
Proof. split; vm_compute; [reflexivity | discriminate]. Qed.

(** While an alignment is active, literal bytes are collected in
    [get_align_text]; when the stream ends there, or the end-of-text
    marker comes, [decode] returns the buffer from before them. *)
Lemma aligned_literals_stay_in_scratch
  (env : Env) (pre lits tail : list byte) (s : t) :
  read_loop env pre (init env) = Ok s ->
  is_align s = true -> is_style_marker s = false ->
  is_end_of_text s = false ->
  Forall literal lits ->
  tail = [] \/ (exists rest, tail = FPaperMarkers.END_OF_TEXT :: rest) ->
  (exists s', read_loop env (pre ++ lits ++ tail) (init env) = Ok s' /\
              get_align_text s'
              = (get_align_text s ++ string_of_list_byte lits)%string) /\
  decode env (Some (pre ++ lits ++ tail)) = Ok (extracted_text s).
Proof.
  intros Hpre Ha Hs He Hlits Htail.
  assert (Hf : start_flags s = repeat true 7).
  { apply (read_loop_in_text_if_styled env pre (init env) s);
      [apply in_text_if_styled_init | exact Hpre | now left]. }
  pose proof (read_loop_aligned env lits s Hf Hs He Ha Hlits) as Hl.
  set (s1 := set_get_align_text
               (get_align_text s ++ string_of_list_byte lits) s) in *.
  assert (H : exists s',
             read_loop env (pre ++ lits ++ tail) (init env) = Ok s' /\
             get_align_text s' = get_align_text s1 /\
             extracted_text s' = extracted_text s).
  { rewrite read_loop_app, Hpre; cbn [bind].
    rewrite read_loop_app, Hl; cbn [bind].
    destruct Htail as [->|[rest ->]].
    - exists s1. simpl. auto.
    - exists (set_is_end_of_text true s1). split; [|split; reflexivity].
      simpl. unfold s1 at 1; simpl. rewrite He.
      assert (Hd : detect env FPaperMarkers.END_OF_TEXT s1
                   = Ok (set_is_end_of_text true s1)).
      { unfold detect, s1; simpl. rewrite Hs.
        destruct s; unfold start_flags in Hf; simpl in *.
        injection Hf as -> -> -> -> -> -> ->. reflexivity. }
      rewrite Hd; simpl. now apply read_loop_done. }
  destruct H as (s' & Hrun & Hscratch & Htext). split.
  - exists s'. split; [exact Hrun | exact Hscratch].
  - rewrite (decode_read_loop env _ s' Hrun). now rewrite Htext.
Qed.

Lemma decode_text_of (env : Env) (bytes : list byte) :
  decode env (Some bytes) = text_of (read_loop env bytes (init env)).
Proof.
  unfold decode, extract, text_of.
  destruct (read_loop env bytes (init env)); reflexivity.
Qed.

(** C9: when the stream ends, or the end-of-text marker comes, while an
    alignment is active (no reset-alignment has come since the alignment
    was set), the literal bytes read since then, which went to the scratch
    buffer, are dropped: [decode] returns what it returns for the stream
    without them.  Style markers may stand between the literal bytes. *)
Theorem unflushed_alignment_text_is_dropped
  (env : Env) (pre : list byte) (body : list item) (tail : list byte)
  (s : t) :
  read_loop env pre (init env) = Ok s ->
  is_align s = true -> is_style_marker s = false ->
  is_end_of_text s = false ->
  Forall item_ok body ->
  tail = [] \/ (exists rest, tail = FPaperMarkers.END_OF_TEXT :: rest) ->
  decode env (Some (pre ++ flat_map bytes_of body ++ tail))
  = decode env (Some (pre ++ flat_map bytes_of (filter is_style body)
                          ++ tail)).
Proof.
  intros Hpre Ha Hs He Hbody Htail.
  assert (Hf : start_flags s = repeat true 7).
  { apply (read_loop_in_text_if_styled env pre (init env) s);
      [apply in_text_if_styled_init | exact Hpre | now left]. }
  rewrite !decode_text_of, !read_loop_app, Hpre. cbn [bind].
  apply read_loop_without_literals; try assumption.
  - now repeat split.
  - reflexivity.
Qed.

(** The decoder after the header, "A" and set-center. *)
Definition center_open : t :=
  Eval vm_compute in
    match read_loop term_24x80
            (header ++ [x41; FPaperMarkers.STYLE_MARKER;
                        FPaperMarkers.ALIGN_CENTER_SET])
            (init term_24x80) with
    | Ok s => s
    | Raise _ => init term_24x80
    end.

Lemma unflushed_alignment_text_is_dropped_witness :
  decode term_24x80
    (Some ((header ++ [x41; FPaperMarkers.STYLE_MARKER;
                       FPaperMarkers.ALIGN_CENTER_SET])
           ++ flat_map bytes_of
                [Lit x68; Style FPaperMarkers.BOLD_SET; Lit x69]
           ++ [FPaperMarkers.END_OF_TEXT; x42]))
  = decode term_24x80
      (Some ((header ++ [x41; FPaperMarkers.STYLE_MARKER;
                         FPaperMarkers.ALIGN_CENTER_SET])
             ++ flat_map bytes_of
                  (filter is_style
                     [Lit x68; Style FPaperMarkers.BOLD_SET; Lit x69])
             ++ [FPaperMarkers.END_OF_TEXT; x42])).
Proof.
  apply (unflushed_alignment_text_is_dropped term_24x80
           (header ++ [x41; FPaperMarkers.STYLE_MARKER;
                       FPaperMarkers.ALIGN_CENTER_SET])
           [Lit x68; Style FPaperMarkers.BOLD_SET; Lit x69]
           [FPaperMarkers.END_OF_TEXT; x42] center_open).
  - reflexivity.
  - reflexivity.
  - reflexivity.
  - reflexivity.
  - repeat constructor; discriminate.
  - right. now exists [x42].
Defined.

(** Both sides of such an equation, evaluated: "h" and "i" are in
    neither. *)
Example unflushed_alignment_text_evaluated :
  decode term_24x80
    (Some ((header ++ [x41; FPaperMarkers.STYLE_MARKER;
                       FPaperMarkers.ALIGN_CENTER_SET])
           ++ [x68; FPaperMarkers.STYLE_MARKER; FPaperMarkers.BOLD_SET; x69]
           ++ [FPaperMarkers.END_OF_TEXT; x42]))
  = Ok ("A" ++ String ESC "[1m")%string.
Proof. reflexivity. Qed.

(** *** The buffer only grows *)

(** C10: a step of the decoder ([detect] on one byte, in any state of the
    decoder) only appends to [extracted_text]: the text before the step
    is a prefix of the text after it.  The step completes unless the byte
    is 128 or more; then [decode] raises before any assignment. *)
Theorem detect_appends_only (env : Env) (ch : byte) (s : t) :
  match detect env ch s with
  | Ok s' =>
      exists suffix : string,
        extracted_text s' = (extracted_text s ++ suffix)%string
  | Raise e => e = UnicodeDecodeError /\ (128 <= Byte.to_N ch)%N
  end.
Proof.
  pose proof (detect_extends env ch s) as H.
  destruct (detect env ch s) as [s'|e] eqn:E; [exact H|].
  split; [now apply (detect_raises env ch s) | exact H].
Qed.

(** *** A whole document *)

(** C7: the prologue, the start-of-text byte, "A", the style marker, the
    bold shortcut, "B" and the end-of-text byte decode to "A", ESC, "[1m"
    and "B". *)
Theorem decode_bold_scenario (env : Env) :
  decode env
    (Some (prologue ++
           [FPaperMarkers.START_OF_TEXT; x41; FPaperMarkers.STYLE_MARKER;
            FPaperMarkers.BOLD_SET; x42; FPaperMarkers.END_OF_TEXT]))
  = Ok ("A" ++ String ESC "[1m" ++ "B")%string.
Proof. destruct env. reflexivity. Qed.

End DecoderSpec.

(** ** Rounding *)

Section Rounding.

Import Float64.

Lemma ilog2_lower (a b : positive) :
  0 <= ilog2 a b -> Zpos b * 2 ^ ilog2 a b <= Zpos a.
Proof.
  unfold ilog2.
  set (e0 := Z.log2 (Zpos a) - Z.log2 (Zpos b)).
  destruct (0 <=? e0) eqn:E0.
  - destruct (Zpos b * 2 ^ e0 <=? Zpos a) eqn:T.
    + intros _. now apply Z.leb_le.
    + intros He.
      pose proof (Z.log2_spec (Zpos a) (Pos2Z.is_pos a)) as [Ha _].
      pose proof (Z.log2_spec (Zpos b) (Pos2Z.is_pos b)) as [_ Hb].
      pose proof (Z.log2_nonneg (Zpos b)) as Hlb.
      assert (Hsplit : 2 ^ Z.log2 (Zpos a)
                       = 2 ^ Z.succ (Z.log2 (Zpos b)) * 2 ^ (e0 - 1)).
      { rewrite <- Z.pow_add_r by lia. f_equal. unfold e0. lia. }
      assert (Hpos : 0 < 2 ^ (e0 - 1)) by (apply Z.pow_pos_nonneg; lia).
      nia.
  - destruct (Zpos b <=? Zpos a * 2 ^ (- e0)); apply Z.leb_gt in E0; lia.
Qed.

Lemma rne_ge_floor (num den : Z) : num / den <= rne num den.
Proof.
  unfold rne. destruct (2 * (num mod den) ?= den); [|lia|lia].
  destruct (Z.even (num / den)); lia.
Qed.

(** Rounding does not cross an integer that is itself representable:
    what is at least [n] rounds to at least [n], for [0 <= n <= 2^53]. *)
Lemma round_ge_int (n : Z) (x : Q) :
  0 <= n <= 2 ^ 53 -> (inject_Z n <= x)%Q -> (inject_Z n <= round x)%Q.
Proof.
  intros Hn Hx. destruct x as [num den].
  unfold Qle in Hx; simpl in Hx.
  unfold round; simpl Qnum; simpl Qden.
  destruct num as [|a|a]; [ | | lia].
  - assert (n = 0) by lia. subst n. apply Qle_refl.
  - unfold round_pos.
    set (e := ilog2 a den). set (s := Z.min (52 - e) 1074).
    destruct (0 <=? s) eqn:Es.
    + apply Z.leb_le in Es.
      assert (Hp : 0 < 2 ^ s) by (apply Z.pow_pos_nonneg; lia).
      unfold Qle; cbn [Qnum Qden inject_Z]. rewrite Z2Pos.id by exact Hp.
      pose proof (rne_ge_floor (Zpos a * 2 ^ s) (Zpos den)) as Hr.
      assert (Hfl : n * 2 ^ s <= Zpos a * 2 ^ s / Zpos den).
      { apply Z.div_le_lower_bound; [lia | nia]. }
      lia.
    + apply Z.leb_gt in Es.
      assert (He : 52 < e) by lia.
      assert (Hs : - s = e - 52) by lia. rewrite Hs.
      rewrite <- Zle_Qle.
      pose proof (ilog2_lower a den ltac:(fold e; lia)) as Hlow.
      fold e in Hlow.
      assert (Hsplit : 2 ^ e = 2 ^ (e - 52) * 2 ^ 52).
      { rewrite <- Z.pow_add_r by lia. f_equal. lia. }
      assert (Hk : 2 ^ 1 <= 2 ^ (e - 52))
        by (apply Z.pow_le_mono_r; lia).
      pose proof (rne_ge_floor (Zpos a) (Zpos den * 2 ^ (e - 52))) as Hr.
      assert (Hfl : 2 ^ 52 <= Zpos a / (Zpos den * 2 ^ (e - 52))).
      { apply Z.div_le_lower_bound; [nia|].
        rewrite Hsplit in Hlow. lia. }
      change (2 ^ 53) with (2 ^ 52 * 2 ^ 1) in Hn.
      set (P := 2 ^ 52) in *. set (K := 2 ^ (e - 52)) in *.
      change (2 ^ 1) with 2 in *.
      assert (0 < P) by (unfold P; lia).
      nia.
Qed.

Lemma f3_95_pos : (0 < f3_95)%Q.
Proof. reflexivity. Qed.

Lemma div_3_95_nonneg (h : Z) : 0 <= h -> (0 <= div_3_95 h)%Q.
Proof.
  intros Hh. unfold div_3_95.
  apply (round_ge_int 0); [lia|].
  apply Qle_shift_div_l; [exact f3_95_pos|].
  rewrite Qmult_0_l. change 0%Q with (inject_Z 0).
  now rewrite <- Zle_Qle.
Qed.

Lemma add1_ge (n : Z) (x : Q) :
  0 <= n < 2 ^ 53 -> (inject_Z n <= x)%Q ->
  (inject_Z (n + 1) <= add1 x)%Q.
Proof.
  intros Hn Hx. unfold add1. apply round_ge_int; [lia|].
  rewrite inject_Z_plus. apply Qplus_le_compat; [exact Hx | apply Qle_refl].
Qed.

Lemma sub1_ge (n : Z) (x : Q) :
  1 <= n <= 2 ^ 53 -> (inject_Z n <= x)%Q ->
  (inject_Z (n - 1) <= sub1 x)%Q.
Proof.
  intros Hn Hx. unfold sub1. apply round_ge_int; [lia|].
  unfold Z.sub, Qminus. rewrite inject_Z_plus.
  apply Qplus_le_compat; [exact Hx | apply Qle_refl].
Qed.

Lemma lt_int_true (x : Q) (n : Z) :
  lt_int x n = true -> (x < inject_Z n)%Q.
Proof.
  unfold lt_int. intros H. apply negb_true_iff in H.
  apply Qnot_le_lt. intros Hle. apply Qle_bool_iff in Hle. congruence.
Qed.


(** [Float64] computes what the binary64 operations of [SpecFloat] compute:
    the literal [3.95], the quotient [h / 3.95] for the first 400 widths and
    for the largest unsigned short, and 150 successive [+= 1] and [-= 1]
    from [80 / 3.95], across the powers of two 32, 64 and 128. *)
Example f3_95_is_binary64 : SF64.agrees f3_95 SF64.f3_95 = true.
Proof. vm_compute. reflexivity. Qed.

Example div_3_95_is_binary64 :
  forallb (fun h => SF64.agrees (div_3_95 h)
                      (SFdiv 53 1024 (SF64.of_Z h) SF64.f3_95))
          (65535 :: map Z.of_nat (seq 0 400)) = true.
Proof. vm_compute. reflexivity. Qed.

Example add1_is_binary64 :
  SF64.agree_along 150 add1
    (fun f => SFadd 53 1024 f (SF64.of_Z 1))
    (div_3_95 80) (SFdiv 53 1024 (SF64.of_Z 80) SF64.f3_95) = true.
Proof. vm_compute. reflexivity. Qed.

Example sub1_is_binary64 :
  SF64.agree_along 150 sub1
    (fun f => SFsub 53 1024 f (SF64.of_Z 1))
    (Nat.iter 150 add1 (div_3_95 80))
    (Nat.iter 150 (fun f => SFadd 53 1024 f (SF64.of_Z 1))
       (SFdiv 53 1024 (SF64.of_Z 80) SF64.f3_95)) = true.
Proof. vm_compute. reflexivity. Qed.

End Rounding.

(** ** Properties of the pager *)

Module PagerSpec.

Import Totem.

(** A document of five lines and a document of thirty lines. *)
Definition five_lines : list byte :=
  header ++ [x61; x0a; x62; x0a; x63; x0a; x64; x0a; x65].

Definition thirty_lines : list byte := header ++ repeat x0a 30.

(** The pager of each on a terminal of 24 rows and 80 columns, as
    [__init__] leaves it. *)
Definition pager_of (file : list byte) : t :=
  match init term_24x80 (Some file) with
  | Ok s => s
  | Raise _ =>
      {| file_data := ""; up__ := 0; down__ := 0; full_length__ := 0;
         w__ := 24; h__ := 80 |}
  end.

Definition five_lines_pager : t := Eval vm_compute in pager_of five_lines.
Definition thirty_lines_pager : t := Eval vm_compute in pager_of thirty_lines.

(** The Down-arrow and Up-arrow sequences as [getchar] delivers them. *)
Definition down_arrow : list ascii := [ESC; "["; "B"]%char.
Definition up_arrow : list ascii := [ESC; "["; "A"]%char.

(** What the loop maintains: [__up__] lies between 0 and the number of
    lines, and [__down__] is not below [__up__].  The number of lines is
    within the range in which binary64 represents every integer. *)
Definition viewport_ok (s : t) : Prop :=
  0 <= up__ s <= full_length__ s /\
  (inject_Z (up__ s) <= down__ s)%Q /\
  full_length__ s <= 2 ^ 53.

Lemma scroll_full_length (ch : ascii) (s : t) :
  full_length__ (scroll ch s) = full_length__ s.
Proof.
  unfold scroll.
  repeat match goal with
         | |- context [if ?b then _ else _] => destruct b
         end; reflexivity.
Qed.

Lemma scroll_ok (ch : ascii) (s : t) :
  viewport_ok s -> viewport_ok (scroll ch s).
Proof.
  intros (Hup & Hdown & Hfull). unfold scroll.
  destruct (Ascii.eqb ch "A").
  - destruct (1 <=? up__ s) eqn:E; [|now repeat split].
    apply Z.leb_le in E. unfold viewport_ok; simpl.
    repeat split; try lia. apply sub1_ge; [lia | exact Hdown].
  - destruct (Ascii.eqb ch "B"); [|now repeat split].
    destruct (Float64.lt_int (down__ s) (full_length__ s)) eqn:E;
      [|now repeat split].
    apply lt_int_true in E.
    assert (Hlt : up__ s < full_length__ s).
    { rewrite Zlt_Qlt. eapply Qle_lt_trans; eassumption. }
    unfold viewport_ok; simpl.
    repeat split; try lia. apply add1_ge; [lia | exact Hdown].
Qed.

(** The loop takes its keys three at a time, so the induction is on a
    bound of the number of keys. *)
Lemma key_loop_invariant (P : t -> Prop) :
  (forall ch s, P s -> P (scroll ch s)) ->
  forall keys s, P s -> P (state_of (key_loop keys s)).
Proof.
  intros Hstep keys.
  assert (H : forall n keys, (List.length keys <= n)%nat ->
                forall s, P s -> P (state_of (key_loop keys s))).
  { induction n as [|n IH]; intros ks Hlen s Hs.
    - destruct ks; [exact Hs | simpl in Hlen; lia].
    - destruct ks as [|c1 [|c2 [|c3 rest]]]; simpl;
        try exact Hs; try (destruct (is_quit c1); exact Hs).
      destruct (is_quit c1); [exact Hs|].
      apply IH; [simpl in Hlen; lia | now apply Hstep]. }
  now apply (H (List.length keys)).
Qed.

Lemma key_loop_ok (keys : list ascii) (s : t) :
  viewport_ok s -> viewport_ok (state_of (key_loop keys s)).
Proof. apply key_loop_invariant. exact scroll_ok. Qed.

Lemma key_loop_full_length (keys : list ascii) (s : t) :
  full_length__ (state_of (key_loop keys s)) = full_length__ s.
Proof.
  apply (key_loop_invariant (fun s' => full_length__ s' = full_length__ s));
    [|reflexivity].
  intros ch s' <-. apply scroll_full_length.
Qed.

(** [__init__] leaves the top of the viewport at 0. *)
Lemma init_viewport (env : Env) (file : option (list byte)) (s0 : t) :
  init env file = Ok s0 ->
  up__ s0 = 0 /\ 0 <= full_length__ s0 /\ 0 <= h__ s0.
Proof.
  unfold init. destruct (FPaper_Extract.decode env file); simpl;
    [|discriminate].
  intros H. injection H as <-. simpl. repeat split; lia.
Qed.

Lemma init_buffer_ok (env : Env) (file : option (list byte))
      (keys : list ascii) (s0 : t) :
  init env file = Ok s0 -> full_length__ s0 <= 2 ^ 53 ->
  viewport_ok (state_of (init_buffer keys s0)).
Proof.
  intros Hinit Hfull.
  destruct (init_viewport env file s0 Hinit) as (Hup & Hlen & Hh).
  unfold init_buffer. apply key_loop_ok.
  unfold viewport_ok; simpl. rewrite Hup.
  repeat split; try lia. now apply div_3_95_nonneg.
Qed.

(** *** The Down arrow *)




(** *** Other keys *)

(** C6, as the claim states it, fails: a key that is neither q/Q nor
    part of an arrow sequence is not consumed alone.  After "x" the loop
    reads two more keys: it does not see the "q" that follows, and a "B"
    two keys later scrolls down. *)
Lemma plain_key_consumes_three_reads :
  exists s0 : t,
    init term_24x80 (Some thirty_lines) = Ok s0 /\
    let s := state_of (init_buffer [] s0) in
    key_loop ["q"]%char s = Quit s [] /\
    key_loop ["x"; "q"]%char s = Reading s /\
    up__ (state_of (key_loop ["x"; "y"; "B"]%char s)) = up__ s + 1.
Proof.
  exists thirty_lines_pager. repeat split; vm_compute; reflexivity.
Qed.

(** C6, amended: in the key loop of the pager every key other than q/Q
    opens a group of three key reads, whatever the key is; the second key
    is not looked at and the third alone selects the action.  When the
    third key is neither 'A' nor 'B' the viewport is unchanged and the
    loop goes on with the key after the group; until the three keys have
    come the loop waits in the read with the viewport unchanged. *)
Theorem other_keys_ignored_in_groups_of_three
  (s : t) (c1 c2 c3 : ascii) (rest : list ascii) :
  is_quit c1 = false -> c3 <> "A"%char -> c3 <> "B"%char ->
  key_loop (c1 :: c2 :: c3 :: rest) s = key_loop rest s /\
  key_loop [c1] s = Reading s /\
  key_loop [c1; c2] s = Reading s.
Proof.
  intros Hq HA HB. simpl. rewrite Hq. repeat split.
  unfold scroll.
  apply Ascii.eqb_neq in HA, HB. now rewrite HA, HB.
Qed.

Lemma other_keys_ignored_in_groups_of_three_witness :
  exists s0 : t,
    init term_24x80 (Some thirty_lines) = Ok s0 /\
    let s := state_of (init_buffer [] s0) in
    key_loop ("x" :: "y" :: "z" :: down_arrow)%char s
    = key_loop down_arrow s /\
    key_loop ["x"%char] s = Reading s /\
    key_loop ["x"; "y"]%char s = Reading s.
Proof.
  exists thirty_lines_pager. split; [vm_compute; reflexivity|].
  apply (other_keys_ignored_in_groups_of_three
           (state_of (init_buffer [] thirty_lines_pager))
           "x" "y" "z" down_arrow);
    [reflexivity | discriminate | discriminate].
Defined.

(** *** The viewport invariant *)

(** C8: the top of the viewport is 0 when the pager is built, whatever
    the decoder did, and [0 <= top <= totalLines] holds in every state
    that the keyboard loop reaches from there, whatever keys are typed
    (for a document of at most [2^53] lines, the integers that a
    binary64 [__down__] can count). *)
Theorem viewport_top_within_bounds
  (env : Env) (file : option (list byte)) (s0 : t) (keys : list ascii) :
  init env file = Ok s0 -> full_length__ s0 <= 2 ^ 53 ->
  let s := state_of (init_buffer keys s0) in
  up__ s0 = 0 /\
  full_length__ s = full_length__ s0 /\
  0 <= up__ s <= full_length__ s.
Proof.
  intros Hinit Hfull s.
  destruct (init_viewport env file s0 Hinit) as (Hup & _).
  pose proof (init_buffer_ok env file keys s0 Hinit Hfull) as (Hinv & _).
  repeat split; try assumption; try apply Hinv.
  unfold s, init_buffer. now rewrite key_loop_full_length.
Qed.

Lemma viewport_top_within_bounds_witness :
  exists s0 : t,
    init term_24x80 (Some thirty_lines) = Ok s0 /\
    let s := state_of
               (init_buffer (down_arrow ++ down_arrow ++ up_arrow) s0) in
    up__ s0 = 0 /\
    full_length__ s = full_length__ s0 /\
    0 <= up__ s <= full_length__ s.
Proof.
  exists thirty_lines_pager. split; [vm_compute; reflexivity|].
  apply (viewport_top_within_bounds term_24x80 (Some thirty_lines)
           thirty_lines_pager (down_arrow ++ down_arrow ++ up_arrow)).
  - vm_compute. reflexivity.
  - vm_compute. discriminate.
Defined.

End PagerSpec.


(** ** More on the decoder: documents of literal text and alignment *)

Module DecoderText.

Import FPaper_Extract.

(** The decoder inside the text region, with no style argument pending and
    the end of the text not seen: [txt] is the buffer, [scratch] the
    alignment scratch buffer, and [a], [l], [c], [r] are [is_align],
    [is_left_align], [is_center_align] and [is_right_align]. *)
Definition text_state (env : Env) (txt scratch : string) (a l c r : bool)
  : t :=
  {| extracted_text := txt; get_align_text := scratch;
     is_start_marker := true; is_start_marker_2 := true;
     is_start_marker_3 := true; is_start_marker_4 := true;
     is_start_marker_5 := true; is_start_marker_6 := true;
     is_start_of_text := true; is_end_of_text := false;
     is_style_marker := false;
     is_align := a; is_left_align := l; is_center_align := c;
     is_right_align := r; is_reset_align := false;
     w__ := Z.of_N (ws_row env); h__ := Z.of_N (ws_col env) |}.

(** What reset-alignment appends for the text [text] collected under the
    alignment marker [m], on a terminal whose [__w__] is [w]. *)
Definition padded (m : byte) (w : Z) (text : string) : string :=
  if FPaperMarkers.is_center_align m then
    (spaces (Z.to_nat w) ++ text ++ spaces (Z.to_nat w))%string
  else if FPaperMarkers.is_left_align m then
    (text ++ spaces (Z.to_nat w))%string
  else
    (spaces (Z.to_nat (w * 2)) ++ text)%string.

(** The three alignment markers. *)
Definition alignment_marker (m : byte) : Prop :=
  m = FPaperMarkers.ALIGN_LEFT_SET \/ m = FPaperMarkers.ALIGN_CENTER_SET \/
  m = FPaperMarkers.ALIGN_RIGHT_SET.

Section Runs.

Variable env : Env.

Lemma string_of_list_byte_app (a b : list byte) :
  string_of_list_byte (a ++ b)
  = (string_of_list_byte a ++ string_of_list_byte b)%string.
Proof.
  induction a as [|x a IH]; simpl; [reflexivity|].
  unfold string_of_list_byte in *. simpl. now rewrite IH.
Qed.

Lemma header_run :
  read_loop env header (init env)
  = Ok (text_state env "" "" false false false false).
Proof. destruct env. vm_compute. reflexivity. Qed.

(** Outside an alignment, literal bytes go to the buffer. *)
Lemma read_loop_plain (lits : list byte) (s : t) :
  start_flags s = repeat true 7 ->
  is_style_marker s = false -> is_end_of_text s = false ->
  is_align s = false ->
  Forall literal lits ->
  read_loop env lits s = Ok (emit (string_of_list_byte lits) s).
Proof.
  intros Hf Hs He Ha Hall. revert s Hf Hs He Ha.
  induction Hall as [|x l (Hx & Hx1 & Hx2) Hl IH]; intros s Hf Hs He Ha.
  - simpl. unfold emit. rewrite append_nil_r. now destruct s.
  - simpl. rewrite He.
    destruct s; unfold start_flags in Hf; simpl in *.
    injection Hf as -> -> -> -> -> -> ->; subst.
    unfold detect; simpl.
    unfold FPaperMarkers.is_style_marker, FPaperMarkers.is_end_of_text.
    rewrite (eqb_neq _ _ Hx1), (eqb_neq _ _ Hx2).
    unfold Py.decode_utf8.
    unfold ascii_byte in Hx. apply N.ltb_lt in Hx. rewrite Hx. simpl.
    rewrite IH; try reflexivity.
    unfold emit, set_extracted_text; simpl.
    rewrite append_assoc. reflexivity.
Qed.

Lemma plain_run (lits : list byte) (txt scratch : string) (l c r : bool) :
  Forall literal lits ->
  read_loop env lits (text_state env txt scratch false l c r)
  = Ok (text_state env (txt ++ string_of_list_byte lits) scratch
          false l c r).
Proof.
  intros H. now rewrite read_loop_plain.
Qed.

Lemma scratch_run (lits : list byte) (txt scratch : string) (l c r : bool) :
  Forall literal lits ->
  read_loop env lits (text_state env txt scratch true l c r)
  = Ok (text_state env txt (scratch ++ string_of_list_byte lits)
          true l c r).
Proof.
  intros H. now rewrite read_loop_aligned.
Qed.

(** A style marker and an alignment marker: the alignment is switched and
    both buffers are left as they are. *)
Lemma set_alignment_run (m : byte) (txt scratch : string) (a l c r : bool) :
  alignment_marker m ->
  read_loop env [FPaperMarkers.STYLE_MARKER; m]
    (text_state env txt scratch a l c r)
  = Ok (text_state env txt scratch true
          (FPaperMarkers.is_left_align m) (FPaperMarkers.is_center_align m)
          (FPaperMarkers.is_right_align m)).
Proof. intros [-> | [-> | ->]]; reflexivity. Qed.

(** A style marker and reset-alignment under the one alignment [m]. *)
Lemma reset_alignment_run (m : byte) (txt scratch : string) :
  alignment_marker m ->
  read_loop env [FPaperMarkers.STYLE_MARKER; FPaperMarkers.ALIGN_RESET]
    (text_state env txt scratch true
       (FPaperMarkers.is_left_align m) (FPaperMarkers.is_center_align m)
       (FPaperMarkers.is_right_align m))
  = Ok (text_state env (txt ++ padded m (Z.of_N (ws_row env)) scratch) ""
          false false false false).
Proof.
  intros [-> | [-> | ->]]; simpl; unfold detect; simpl;
    unfold left, center, right, emit, padded, text_state, Py.range_len;
    simpl; rewrite ?add_spaces_spec, ?append_assoc; reflexivity.
Qed.

(** A style marker and reset-alignment with no alignment active. *)
Lemma reset_without_alignment_run (txt : string) :
  read_loop env [FPaperMarkers.STYLE_MARKER; FPaperMarkers.ALIGN_RESET]
    (text_state env txt "" false false false false)
  = Ok (text_state env txt "" false false false false).
Proof. reflexivity. Qed.

End Runs.

(** The end of the stream, or the end-of-text marker and whatever follows
    it. *)
Definition ends_text (tail : list byte) : Prop :=
  tail = [] \/ exists rest, tail = FPaperMarkers.END_OF_TEXT :: rest.

Lemma end_run (env : Env) (tail : list byte) (s : t) :
  start_flags s = repeat true 7 -> is_style_marker s = false ->
  ends_text tail ->
  exists s', read_loop env tail s = Ok s' /\
             extracted_text s' = extracted_text s.
Proof.
  intros Hf Hs [->|[rest ->]].
  - now exists s.
  - simpl. destruct (is_end_of_text s) eqn:He; [now exists s|].
    exists (set_is_end_of_text true s).
    assert (Hd : detect env FPaperMarkers.END_OF_TEXT s
                 = Ok (set_is_end_of_text true s)).
    { unfold detect. rewrite Hs.
      destruct s; unfold start_flags in Hf; simpl in *.
      injection Hf as -> -> -> -> -> -> ->. reflexivity. }
    rewrite Hd; simpl. split; [now apply read_loop_done | reflexivity].
Qed.

Lemma text_state_flags (env : Env) (txt scratch : string) (a l c r : bool) :
  start_flags (text_state env txt scratch a l c r) = repeat true 7 /\
  is_style_marker (text_state env txt scratch a l c r) = false.
Proof. split; reflexivity. Qed.

(** Runs the tail of a stream from the [text_state] that the goal has
    reached, and leaves the comparison of the two buffers. *)
Ltac run_tail env tail Htail :=
  match goal with
  | |- context [read_loop env tail ?s] =>
      let s' := fresh "s'" in
      let Hrun := fresh "Hrun" in
      let Htxt := fresh "Htxt" in
      destruct (end_run env tail s) as (s' & Hrun & Htxt);
      [reflexivity | reflexivity | exact Htail |];
      rewrite Hrun; cbn [bind fst]; rewrite Htxt;
      cbn [extracted_text text_state]
  end.

(** X1: literal text passes through the decoder: the prologue, the
    start-of-text byte and literal bytes (bytes below 128 other than the
    style marker and the end-of-text marker) decode to the characters of
    those bytes, whether the stream ends there or goes on with the
    end-of-text marker and anything after it. *)
Theorem plain_text_passes_through
  (env : Env) (lits tail : list byte) :
  Forall literal lits -> ends_text tail ->
  decode env (Some (header ++ lits ++ tail))
  = Ok (string_of_list_byte lits).
Proof.
  intros Hl Htail. unfold decode, extract.
  rewrite read_loop_app, header_run; cbn [bind].
  rewrite read_loop_app, plain_run by exact Hl; cbn [bind].
  run_tail env tail Htail. reflexivity.
Qed.

Lemma plain_text_passes_through_witness :
  decode term_24x80 (Some (header ++ [x68; x69; x0a] ++ [x15; xff]))
  = Ok (string_of_list_byte [x68; x69; x0a]).
Proof.
  apply (plain_text_passes_through term_24x80 [x68; x69; x0a] [x15; xff]).
  - repeat constructor; discriminate.
  - right. now exists [xff].
Defined.

(** X2: text between an alignment marker and reset-alignment is flushed
    with its padding, for the three alignments and every literal text:
    the buffer is the text before the alignment, then the aligned text
    padded by [__w__] (the rows of the terminal) spaces after it (left),
    on both sides (center), or by twice as many before it (right), then
    the text after the reset. *)
Theorem aligned_text_is_padded
  (env : Env) (m : byte) (before text after tail : list byte) :
  alignment_marker m ->
  Forall literal before -> Forall literal text -> Forall literal after ->
  ends_text tail ->
  decode env
    (Some (header ++ before ++ [FPaperMarkers.STYLE_MARKER; m] ++ text
           ++ [FPaperMarkers.STYLE_MARKER; FPaperMarkers.ALIGN_RESET]
           ++ after ++ tail))
  = Ok (string_of_list_byte before
        ++ padded m (Z.of_N (ws_row env)) (string_of_list_byte text)
        ++ string_of_list_byte after)%string.
Proof.
  intros Hm Hb Ht Ha Htail. unfold decode, extract.
  rewrite read_loop_app, header_run; cbn [bind].
  rewrite read_loop_app, plain_run by exact Hb; cbn [bind].
  rewrite read_loop_app, set_alignment_run by exact Hm; cbn [bind].
  rewrite read_loop_app, scratch_run by exact Ht; cbn [bind].
  rewrite read_loop_app, reset_alignment_run by exact Hm; cbn [bind].
  rewrite read_loop_app, plain_run by exact Ha; cbn [bind].
  run_tail env tail Htail. simpl.
  now rewrite append_assoc.
Qed.

Lemma aligned_text_is_padded_witness :
  decode term_24x80
    (Some (header ++ [x41] ++ [FPaperMarkers.STYLE_MARKER; x7d] ++ [x68; x69]
           ++ [FPaperMarkers.STYLE_MARKER; FPaperMarkers.ALIGN_RESET]
           ++ [x42] ++ []))
  = Ok (string_of_list_byte [x41]
        ++ padded x7d (Z.of_N (ws_row term_24x80))
             (string_of_list_byte [x68; x69])
        ++ string_of_list_byte [x42])%string.
Proof.
  apply (aligned_text_is_padded term_24x80 x7d [x41] [x68; x69] [x42] []).
  - right. right. reflexivity.
  - repeat constructor; discriminate.
  - repeat constructor; discriminate.
  - repeat constructor; discriminate.
  - now left.
Defined.

(** X3: an alignment marker under an active alignment replaces the
    alignment and keeps the scratch buffer: at reset-alignment the text
    collected under both markers is flushed together, padded for the
    second one. *)
Theorem last_alignment_marker_wins
  (env : Env) (m1 m2 : byte) (text1 text2 tail : list byte) :
  alignment_marker m1 -> alignment_marker m2 ->
  Forall literal text1 -> Forall literal text2 -> ends_text tail ->
  decode env
    (Some (header ++ [FPaperMarkers.STYLE_MARKER; m1] ++ text1
           ++ [FPaperMarkers.STYLE_MARKER; m2] ++ text2
           ++ [FPaperMarkers.STYLE_MARKER; FPaperMarkers.ALIGN_RESET]
           ++ tail))
  = Ok (padded m2 (Z.of_N (ws_row env))
          (string_of_list_byte text1 ++ string_of_list_byte text2)).
Proof.
  intros Hm1 Hm2 H1 H2 Htail. unfold decode, extract.
  rewrite read_loop_app, header_run; cbn [bind].
  rewrite read_loop_app, set_alignment_run by exact Hm1; cbn [bind].
  rewrite read_loop_app, scratch_run by exact H1; cbn [bind].
  rewrite read_loop_app, set_alignment_run by exact Hm2; cbn [bind].
  rewrite read_loop_app, scratch_run by exact H2; cbn [bind].
  rewrite read_loop_app, reset_alignment_run by exact Hm2; cbn [bind].
  run_tail env tail Htail. reflexivity.
Qed.

Lemma last_alignment_marker_wins_witness :
  decode term_24x80
    (Some (header ++ [FPaperMarkers.STYLE_MARKER; x7b] ++ [x68]
           ++ [FPaperMarkers.STYLE_MARKER; x7d] ++ [x69]
           ++ [FPaperMarkers.STYLE_MARKER; FPaperMarkers.ALIGN_RESET]
           ++ []))
  = Ok (padded x7d (Z.of_N (ws_row term_24x80))
          (string_of_list_byte [x68] ++ string_of_list_byte [x69])).
Proof.
  apply (last_alignment_marker_wins term_24x80 x7b x7d [x68] [x69] []).
  - now left.
  - right. right. reflexivity.
  - repeat constructor; discriminate.
  - repeat constructor; discriminate.
  - now left.
Defined.

(** X4: reset-alignment with no alignment active appends nothing: text
    before it and text after it are joined as they are. *)
Theorem reset_without_alignment_is_dropped
  (env : Env) (before after tail : list byte) :
  Forall literal before -> Forall literal after -> ends_text tail ->
  decode env
    (Some (header ++ before
           ++ [FPaperMarkers.STYLE_MARKER; FPaperMarkers.ALIGN_RESET]
           ++ after ++ tail))
  = Ok (string_of_list_byte before ++ string_of_list_byte after)%string.
Proof.
  intros Hb Ha Htail. unfold decode, extract.
  rewrite read_loop_app, header_run; cbn [bind].
  rewrite read_loop_app, plain_run by exact Hb; cbn [bind].
  rewrite read_loop_app, reset_without_alignment_run; cbn [bind].
  rewrite read_loop_app, plain_run by exact Ha; cbn [bind].
  run_tail env tail Htail. reflexivity.
Qed.

Lemma reset_without_alignment_is_dropped_witness :
  decode term_24x80
    (Some (header ++ [x41]
           ++ [FPaperMarkers.STYLE_MARKER; FPaperMarkers.ALIGN_RESET]
           ++ [x42] ++ []))
  = Ok (string_of_list_byte [x41] ++ string_of_list_byte [x42])%string.
Proof.
  apply (reset_without_alignment_is_dropped term_24x80 [x41] [x42] []).
  - repeat constructor; discriminate.
  - repeat constructor; discriminate.
  - now left.
Defined.

(** X5: once the decoder is in the text region with no style argument
    pending, the end-of-text marker ends the decoding: the bytes that
    follow it, whatever they are, have no effect on what [decode]
    returns, which is the buffer from before the marker.  Not even a byte
    that [detect] would raise on changes that. *)
Theorem bytes_after_end_of_text_are_ignored
  (env : Env) (pre rest : list byte) (s : t) :
  read_loop env pre (init env) = Ok s ->
  start_flags s = repeat true 7 -> is_style_marker s = false ->
  decode env (Some (pre ++ FPaperMarkers.END_OF_TEXT :: rest))
  = Ok (extracted_text s).
Proof.
  intros Hpre Hf Hs. unfold decode, extract.
  rewrite read_loop_app, Hpre; cbn [bind].
  destruct (end_run env (FPaperMarkers.END_OF_TEXT :: rest) s)
    as (s' & Hrun & Htxt); [exact Hf | exact Hs | right; now exists rest |].
  rewrite Hrun; cbn [bind fst]. now rewrite Htxt.
Qed.

Lemma bytes_after_end_of_text_are_ignored_witness :
  decode term_24x80
    (Some ((header ++ [x41]) ++ FPaperMarkers.END_OF_TEXT :: [xff; x42]))
  = Ok (extracted_text (text_state term_24x80 "A" "" false false false false)).
Proof.
  apply (bytes_after_end_of_text_are_ignored term_24x80 (header ++ [x41])
           [xff; x42] (text_state term_24x80 "A" "" false false false false)).
  - vm_compute. reflexivity.
  - reflexivity.
  - reflexivity.
Defined.

End DecoderText.

(** ** More on the decoder: what holds after every stream *)

Module DecoderInvariants.

Import FPaper_Extract.

(** [a] is [b] with some elements left out. *)
Inductive subseq {A : Type} : list A -> list A -> Prop :=
| subseq_nil (l : list A) : subseq [] l
| subseq_skip (a : list A) (x : A) (l : list A) :
    subseq a l -> subseq a (x :: l)
| subseq_take (x : A) (a l : list A) :
    subseq a l -> subseq (x :: a) (x :: l).

(** The alignment flags name at most one alignment, [is_align] is set
    exactly when one is named, [is_reset_align] is never set, and the
    scratch buffer is empty while no alignment is active. *)
Definition alignment_consistent (s : t) : Prop :=
  is_reset_align s = false /\
  if is_align s then
    (is_left_align s, is_center_align s, is_right_align s)
    = (true, false, false) \/
    (is_left_align s, is_center_align s, is_right_align s)
    = (false, true, false) \/
    (is_left_align s, is_center_align s, is_right_align s)
    = (false, false, true)
  else
    (is_left_align s, is_center_align s, is_right_align s)
    = (false, false, false) /\ get_align_text s = ""%string.

(** Every character of [s] is a code point below 128. *)
Fixpoint all_ascii (s : string) : bool :=
  match s with
  | EmptyString => true
  | String c rest => (N_of_ascii c <? 128)%N && all_ascii rest
  end.

Section Invariants.

Variable env : Env.

(** *** The alignment flags *)

Lemma detect_alignment_consistent (ch : byte) (s s' : t) :
  alignment_consistent s -> detect env ch s = Ok s' ->
  alignment_consistent s'.
Proof.
  unfold alignment_consistent, detect, detect_style, Py.decode_utf8, bind.
  intros [Hr Ha] H. destruct s; simpl in *. subst.
  repeat match type of H with
         | context [if ?b then _ else _] => destruct b eqn:?
         end;
    try discriminate; injection H as <-; simpl;
    unfold left, center, right, emit; simpl;
    try (split; [reflexivity|]); auto;
    try (destruct Ha as [Ha|[Ha|Ha]]; discriminate Ha);
    try (destruct Ha as [Ha Hs]; discriminate Ha).
Qed.

Lemma read_loop_preserves (P : t -> Prop) :
  (forall ch s s', P s -> detect env ch s = Ok s' -> P s') ->
  forall bytes s s', P s -> read_loop env bytes s = Ok s' -> P s'.
Proof.
  intros Hstep bytes.
  induction bytes as [|x l IH]; intros s s' Hs H; simpl in H.
  - now injection H as <-.
  - destruct (is_end_of_text s); [now injection H as <-|].
    destruct (detect env x s) as [s1|e] eqn:E; simpl in H; [|discriminate].
    eapply IH; [|exact H]. eapply Hstep; eauto.
Qed.

End Invariants.

(** X6: after every stream that the decoder accepts, the alignment flags
    are consistent: [is_align] is set exactly when one of
    [is_left_align], [is_center_align] and [is_right_align] is, no two of
    them are set together, [is_reset_align] is never set, and the scratch
    buffer is empty whenever no alignment is active. *)
Theorem alignment_flags_consistent
  (env : Env) (bytes : list byte) (s : t) :
  read_loop env bytes (init env) = Ok s -> alignment_consistent s.
Proof.
  apply (read_loop_preserves env alignment_consistent).
  - apply detect_alignment_consistent.
  - unfold alignment_consistent, init; simpl. auto.
Qed.

Lemma alignment_flags_consistent_witness :
  alignment_consistent
    (DecoderText.text_state term_24x80 "" "h" true false false true).
Proof.
  apply (alignment_flags_consistent term_24x80
           (header ++ [x1a; x7b; x68; x1a; x7d])).
  vm_compute. reflexivity.
Defined.

(** *** The header *)

Section Header.

Variable env : Env.

Lemma skipn_header (k : nat) :
  (k < 7)%nat -> skipn k header = nth k header x00 :: skipn (S k) header.
Proof. intros H. do 7 (destruct k as [|k]; [reflexivity|]). lia. Qed.

Lemma subseq_tail {A : Type} (x : A) (a l : list A) :
  subseq (x :: a) l -> subseq a l.
Proof.
  induction l as [|y l IH]; intros H; inversion H; subst.
  - apply subseq_skip. now apply IH.
  - now apply subseq_skip.
Qed.

(** Once the seven flags are set they stay set. *)
Lemma flags_stay (ch : byte) (s s' : t) :
  start_flags s = repeat true 7 -> detect env ch s = Ok s' ->
  start_flags s' = repeat true 7.
Proof.
  unfold detect, detect_style, Py.decode_utf8, bind, start_flags.
  intros Hf H. destruct s; simpl in *.
  injection Hf as -> -> -> -> -> -> ->. simpl in H.
  repeat match type of H with
         | context [if ?b then _ else _] => destruct b
         end;
    try discriminate; injection H as <-; reflexivity.
Qed.

Lemma awaiting_before_text (k : nat) (s : t) :
  (k < 7)%nat -> awaiting k s -> is_start_of_text s = false.
Proof.
  intros Hk (Hf & _). unfold start_flags in Hf.
  do 7 (destruct k as [|k]; [simpl in Hf; now injection Hf|]). lia.
Qed.

(** From progress [k], the decoder reaches the text region exactly when
    the rest of the header is found, in order, in the bytes to come. *)
Lemma read_loop_header (bytes : list byte) :
  forall (k : nat) (s s' : t),
    (k <= 7)%nat -> awaiting k s -> read_loop env bytes s = Ok s' ->
    (exists k', (k' < 7)%nat /\ awaiting k' s' /\
                ~ subseq (skipn k header) bytes) \/
    (start_flags s' = repeat true 7 /\ subseq (skipn k header) bytes).
Proof.
  induction bytes as [|x l IH]; intros k s s' Hk Hs H.
  - simpl in H. injection H as <-.
    destruct (Nat.eq_dec k 7) as [->|Hne].
    + right. split; [apply Hs | apply subseq_nil].
    + left. exists k. split; [lia|]. split; [exact Hs|].
      rewrite skipn_header by lia. intros Hsub. inversion Hsub.
  - destruct (Nat.eq_dec k 7) as [->|Hne].
    + right. split; [|apply subseq_nil].
      apply (DecoderInvariants.read_loop_preserves env
               (fun s => start_flags s = repeat true 7) flags_stay
               (x :: l) s s'); [apply Hs | exact H].
    + simpl in H. pose proof Hs as (_ & _ & He & _). rewrite He in H.
      destruct (detect_awaiting env k x s) as (s1 & Hd & H1);
        [lia | exact Hs |].
      rewrite Hd in H. simpl in H. rewrite skipn_header by lia.
      destruct (Byte.eqb x (nth k header x00)) eqn:E.
      * apply Byte.byte_dec_bl in E. subst x.
        destruct (IH (S k) s1 s') as [(k' & Hk' & Ha & Hn)|(Hf & Hsub)];
          [lia | exact H1 | exact H | |].
        -- left. exists k'. split; [exact Hk'|]. split; [exact Ha|].
           intros Hsub. apply Hn. inversion Hsub; subst.
           ++ eapply subseq_tail; eassumption.
           ++ assumption.
        -- right. split; [exact Hf | now apply subseq_take].
      * destruct (IH k s1 s') as [(k' & Hk' & Ha & Hn)|(Hf & Hsub)];
          [lia | exact H1 | exact H | |].
        -- left. exists k'. split; [exact Hk'|]. split; [exact Ha|].
           rewrite skipn_header in Hn by lia.
           intros Hsub. inversion Hsub; subst.
           ++ now apply Hn.
           ++ apply Byte.eqb_false in E. now apply E.
        -- right. split; [exact Hf|]. apply subseq_skip.
           now rewrite <- skipn_header by lia.
Qed.

End Header.

(** X7: the decoder enters the text region exactly when the six bytes of
    the prologue and the start-of-text byte occur in the stream in this
    order, with any bytes between them; until then the buffer is empty.
    So a stream yields text only if it has these seven bytes in order. *)
Theorem text_region_iff_header
  (env : Env) (bytes : list byte) (s : t) :
  read_loop env bytes (init env) = Ok s ->
  (is_start_of_text s = true <-> subseq header bytes) /\
  (is_start_of_text s = false -> extracted_text s = ""%string).
Proof.
  intros H.
  destruct (read_loop_header env bytes 0 (init env) s)
    as [(k' & Hk' & Ha & Hn)|(Hf & Hsub)];
    [lia | apply awaiting_init | exact H | |].
  - pose proof (awaiting_before_text k' s Hk' Ha) as Hsot.
    simpl in Hn. split.
    + rewrite Hsot. split; [discriminate | contradiction].
    + intros _. apply Ha.
  - assert (Hsot : is_start_of_text s = true).
    { unfold start_flags in Hf. now injection Hf. }
    split.
    + split; [intros _; exact Hsub | intros _; exact Hsot].
    + rewrite Hsot. discriminate.
Qed.

Lemma text_region_iff_header_witness :
  (is_start_of_text
     (DecoderText.text_state term_24x80 "" "" false false false false)
   = true <-> subseq header ([x00; x02; x02] ++ header)) /\
  (is_start_of_text
     (DecoderText.text_state term_24x80 "" "" false false false false)
   = false ->
   extracted_text
     (DecoderText.text_state term_24x80 "" "" false false false false)
   = ""%string).
Proof.
  apply (text_region_iff_header term_24x80 ([x00; x02; x02] ++ header)).
  vm_compute. reflexivity.
Defined.

(** *** Generic SGR codes *)

(** X8: a style argument of value [v] in 40..49 or 100..109 appends the
    escape sequence of code [v - 10], except for 48 and 49: these are the
    light and bold shortcuts, which are tested first, and append the
    escape sequences of codes 0 and 1.  No argument produces the codes 38
    and 39. *)
Theorem generic_sgr_range (env : Env) (arg : byte) (s : t) :
  let v := Z.of_N (Byte.to_N arg) in
  40 <= v <= 49 \/ 100 <= v <= 109 ->
  detect_style env arg s
  = Ok (emit (sgr (if v =? 48 then "0"
                   else if v =? 49 then "1"
                   else Py.str (v - 10))) s).
Proof.
  intros v H. subst v. destruct arg; simpl in H; try lia; reflexivity.
Qed.

Lemma generic_sgr_range_witness :
  detect_style term_24x80 x6d (init term_24x80)
  = Ok (emit (sgr "99") (init term_24x80)).
Proof.
  apply (generic_sgr_range term_24x80 x6d (init term_24x80)).
  simpl. lia.
Defined.

(** *** The characters of the buffer *)

Section Characters.

Variable env : Env.

Lemma all_ascii_app (a b : string) :
  all_ascii (a ++ b) = all_ascii a && all_ascii b.
Proof.
  induction a as [|c a IH]; simpl; [reflexivity|].
  now rewrite IH, andb_assoc.
Qed.

Lemma all_ascii_add_spaces (n : nat) (a : string) :
  all_ascii (Py.add_spaces n a) = all_ascii a.
Proof.
  revert a. induction n as [|n IH]; intros a; simpl; [reflexivity|].
  rewrite IH, all_ascii_app. simpl. now rewrite andb_true_r.
Qed.

Lemma all_ascii_string_of_uint (d : Decimal.uint) :
  all_ascii (NilEmpty.string_of_uint d) = true.
Proof. induction d; simpl; auto. Qed.

Lemma all_ascii_str (n : Z) : all_ascii (Py.str n) = true.
Proof.
  unfold Py.str, NilZero.string_of_int, NilZero.string_of_uint.
  destruct (Z.to_int n) as [d|d]; destruct d; simpl;
    auto using all_ascii_string_of_uint.
Qed.

Lemma all_ascii_sgr (code : string) :
  all_ascii code = true -> all_ascii (sgr code) = true.
Proof.
  intros H. unfold sgr. simpl. rewrite all_ascii_app, H. reflexivity.
Qed.

Lemma decode_utf8_ascii (ch : byte) (c : ascii) :
  Py.decode_utf8 ch = Ok c -> (N_of_ascii c <? 128)%N = true.
Proof.
  unfold Py.decode_utf8. destruct (Byte.to_N ch <? 128)%N eqn:E;
    [|discriminate].
  intros H. injection H as <-.
  destruct ch; simpl in E; try discriminate; reflexivity.
Qed.

Definition buffers_ascii (s : t) : Prop :=
  all_ascii (extracted_text s) = true /\
  all_ascii (get_align_text s) = true.

Ltac ascii_buffers Ht Hs :=
  unfold buffers_ascii, left, center, right, emit, Py.add_char; simpl;
  rewrite ?all_ascii_add_spaces, ?all_ascii_app, ?all_ascii_add_spaces,
    ?all_ascii_app, ?all_ascii_add_spaces, ?Ht, ?Hs;
  simpl; auto.

Lemma detect_style_ascii (ch : byte) (s s' : t) :
  buffers_ascii s -> detect_style env ch s = Ok s' -> buffers_ascii s'.
Proof.
  intros [Ht Hs]. unfold detect_style, bind.
  destruct (Py.decode_utf8 ch) as [c|e] eqn:Ec;
    repeat match goal with
           | |- context [if ?b then _ else _] => destruct b
           end;
    intros H; try discriminate; injection H as <-;
    try solve [ascii_buffers Ht Hs].
  unfold buffers_ascii, emit; simpl.
  rewrite all_ascii_app, Ht, Hs, all_ascii_sgr; auto using all_ascii_str.
Qed.

Lemma detect_ascii_buffers (ch : byte) (s s' : t) :
  buffers_ascii s -> detect env ch s = Ok s' -> buffers_ascii s'.
Proof.
  intros Hb. pose proof Hb as [Ht Hs]. unfold detect.
  destruct (is_style_marker s).
  - destruct (detect_style env ch s) as [s1|e] eqn:E; simpl;
      [|discriminate].
    intros H. injection H as <-.
    apply (detect_style_ascii ch s s1 Hb) in E.
    destruct E as [E1 E2]. split; assumption.
  - unfold bind.
    destruct (Py.decode_utf8 ch) as [c|e] eqn:Ec;
      repeat match goal with
             | |- context [if ?b then _ else _] => destruct b
             end;
      intros H; try discriminate; injection H as <-;
      try solve [ascii_buffers Ht Hs];
      pose proof (decode_utf8_ascii ch c Ec) as Hc;
      ascii_buffers Ht Hs; rewrite Hc; auto.
Qed.

End Characters.

(** X9: the buffer that [decode] returns has only code points below 128:
    the literal bytes it accepts are below 128 and every sequence it
    inserts is made of such characters. *)
Theorem decoded_text_is_ascii (env : Env) (bytes : list byte) (text : string) :
  decode env (Some bytes) = Ok text -> all_ascii text = true.
Proof.
  unfold decode, extract.
  destruct (read_loop env bytes (init env)) as [s|e] eqn:E; simpl;
    [|discriminate].
  intros H. injection H as <-.
  apply (read_loop_preserves env buffers_ascii (detect_ascii_buffers env)
           bytes (init env) s); [|exact E].
  split; reflexivity.
Qed.

Lemma decoded_text_is_ascii_witness :
  all_ascii ("A" ++ String ESC "[1m" ++ "B") = true.
Proof.
  apply (decoded_text_is_ascii term_24x80
           (prologue ++
            [FPaperMarkers.START_OF_TEXT; x41; FPaperMarkers.STYLE_MARKER;
             FPaperMarkers.BOLD_SET; x42; FPaperMarkers.END_OF_TEXT])).
  vm_compute. reflexivity.
Defined.

End DecoderInvariants.

(** ** The pager and its terminal *)

Module PagerTerminal.

Import TotemIO.

(** The lines [ls], each with its line break. *)
Fixpoint join_lines (ls : list string) : string :=
  match ls with
  | [] => ""
  | l :: rest => line_nl l ++ join_lines rest
  end.

(** *** What [__from__] prints *)

Lemma int_lt_float_ceiling (i : Z) (x : Q) :
  int_lt_float i x = true <-> i < Qceiling x.
Proof.
  unfold int_lt_float. rewrite negb_true_iff. split.
  - intros H. rewrite Zlt_Qlt.
    apply Qlt_le_trans with x; [|apply Qle_ceiling].
    apply Qnot_le_lt. intros Hle. apply Qle_bool_iff in Hle. congruence.
  - intros H. destruct (Qle_bool x (inject_Z i)) eqn:E; [|reflexivity].
    apply Qle_bool_iff in E.
    assert (Hc : (inject_Z (Qceiling x - 1) < x)%Q) by apply Qceiling_lt.
    assert (Hi : (inject_Z i <= inject_Z (Qceiling x - 1))%Q)
      by (rewrite <- Zle_Qle; lia).
    exfalso. apply (Qlt_irrefl x).
    eapply Qle_lt_trans; [exact E|].
    eapply Qle_lt_trans; [exact Hi | exact Hc].
Qed.

Lemma from_down_loop_spec (lines : list string) (down : Q) :
  forall (i : Z) (new : string),
    from_down_loop lines i down new
    = (new ++ join_lines (firstn (Z.to_nat (Qceiling down - i)) lines))%string.
Proof.
  induction lines as [|line rest IH]; intros i new; simpl.
  - rewrite firstn_nil. simpl. now rewrite append_nil_r.
  - rewrite IH. destruct (int_lt_float i down) eqn:E.
    + apply int_lt_float_ceiling in E.
      replace (Z.to_nat (Qceiling down - i))
        with (S (Z.to_nat (Qceiling down - (i + 1)))) by lia.
      simpl. now rewrite append_assoc.
    + assert (Hge : Qceiling down <= i).
      { destruct (Z_lt_le_dec i (Qceiling down)) as [Hlt|Hle];
          [|exact Hle].
        apply int_lt_float_ceiling in Hlt. congruence. }
      replace (Z.to_nat (Qceiling down - i)) with O by lia.
      replace (Z.to_nat (Qceiling down - (i + 1))) with O by lia.
      reflexivity.
Qed.

Lemma from_up_loop_spec (lines : list string) (i up : Z) :
  forall new : string,
    from_up_loop lines i up new
    = (new ++ if (up <=? i)%Z then join_lines lines else "")%string.
Proof.
  induction lines as [|line rest IH]; intros new; simpl.
  - destruct (up <=? i); now rewrite append_nil_r.
  - rewrite IH. destruct (up <=? i); [|reflexivity].
    now rewrite append_assoc.
Qed.

(** X10: [__from__(False)] clears the screen and prints the lines of the
    document from its first line on, as many as there are integers from
    0 below [__down__], whatever the top of the viewport is; the top only
    sets how far the cursor moves up afterwards.  The attributes of the
    terminal are not touched. *)
Theorem window_starts_at_first_line (self : Totem.t) (term : terminal) :
  from__ false self term
  = {| screen :=
         screen term ++ String ESC "[2J" ++ String ESC "[H"
         ++ join_lines
              (firstn (Z.to_nat (Qceiling (Totem.down__ self)))
                 (Totem.splitlines (Totem.file_data self)))
         ++ String ESC "[" ++ Py.str (Totem.up__ self) ++ "A";
       tty_attrs := tty_attrs term |}.
Proof.
  unfold from__, up_to, clear, refresh, print_end; simpl.
  rewrite from_down_loop_spec, Z.sub_0_r. simpl.
  f_equal. now rewrite !append_assoc.
Qed.

(** X11: [__from__(True)] does not count the lines (its [i += 1] stands
    after the loop, not in it): it prints every line of the document when
    the top of the viewport is 0 or less, and no line otherwise. *)
Theorem from_up_prints_all_or_nothing (self : Totem.t) (term : terminal) :
  from__ true self term
  = {| screen :=
         screen term ++ String ESC "[2J" ++ String ESC "[H"
         ++ (if (Totem.up__ self <=? 0)%Z
             then join_lines (Totem.splitlines (Totem.file_data self))
             else "")
         ++ String ESC "[" ++ Py.str (Totem.up__ self) ++ "A";
       tty_attrs := tty_attrs term |}.
Proof.
  unfold from__, up_to, clear, refresh, print_end; simpl.
  rewrite from_up_loop_spec. simpl.
  f_equal. now rewrite !append_assoc.
Qed.

(** *** The terminal across the loop *)

Section Session.

Variable setraw : Termios.attrs -> Termios.attrs.

Lemma from_terminal (is_up : bool) (p : Totem.t) (term : terminal) :
  tty_attrs (from__ is_up p term) = tty_attrs term /\
  extends (screen term) (screen (from__ is_up p term)).
Proof.
  split; [reflexivity|].
  unfold from__, up_to, clear, refresh, print_end; simpl.
  rewrite !append_assoc. apply extends_append.
Qed.

Lemma scroll_terminal (ch : ascii) (p : Totem.t) (term : terminal) :
  tty_attrs (snd (scroll ch p term)) = tty_attrs term /\
  extends (screen term) (screen (snd (scroll ch p term))).
Proof.
  unfold scroll.
  repeat match goal with
         | |- context [if ?b then _ else _] => destruct b
         end; cbn [fst snd];
    first [apply from_terminal | split; auto using extends_refl].
Qed.

Lemma scroll_viewport (ch : ascii) (p : Totem.t) (term : terminal) :
  fst (scroll ch p term) = Totem.scroll ch p.
Proof.
  unfold scroll, Totem.scroll.
  repeat match goal with
         | |- context [if ?b then _ else _] => destruct b
         end; reflexivity.
Qed.

(** What every pass of the loop keeps holds when the loop is left, and
    held before the raw mode of the last read was set when it waits. *)
Lemma key_loop_keeps (P : Totem.t -> terminal -> Prop) :
  (forall ch p term,
      P p term -> P (fst (scroll ch p term)) (snd (scroll ch p term))) ->
  forall keys p term,
    P p term ->
    match key_loop setraw keys p term with
    | (p', term', Some _) => P p' term'
    | (p', term', None) =>
        exists term0, P p' term0 /\ term' = waiting setraw term0
    end.
Proof.
  intros Hstep keys.
  assert (H : forall n keys, (List.length keys <= n)%nat ->
                forall p term, P p term ->
                  match key_loop setraw keys p term with
                  | (p', term', Some _) => P p' term'
                  | (p', term', None) =>
                      exists term0, P p' term0 /\
                                    term' = waiting setraw term0
                  end).
  { induction n as [|n IH]; intros ks Hlen p term Hp.
    - destruct ks; [|simpl in Hlen; lia]. simpl. now exists term.
    - destruct ks as [|c1 [|c2 [|c3 rest]]]; simpl;
        try (now exists term);
        try (destruct (Totem.is_quit c1); [exact Hp | now exists term]).
      destruct (Totem.is_quit c1); [exact Hp|].
      specialize (Hstep c3 p term Hp).
      destruct (scroll c3 p term) as [p1 term1]. simpl in Hstep.
      apply IH; [simpl in Hlen; lia | exact Hstep]. }
  now apply (H (List.length keys)).
Qed.

(** The viewport of the loop with the terminal is the one of
    [Totem.key_loop]. *)
Lemma key_loop_viewport (keys : list ascii) (p : Totem.t) (term : terminal) :
  fst (fst (key_loop setraw keys p term))
  = Totem.state_of (Totem.key_loop keys p).
Proof.
  assert (H : forall n keys, (List.length keys <= n)%nat ->
                forall p term,
                  fst (fst (key_loop setraw keys p term))
                  = Totem.state_of (Totem.key_loop keys p)).
  { induction n as [|n IH]; intros ks Hlen q t.
    - destruct ks; [reflexivity | simpl in Hlen; lia].
    - destruct ks as [|c1 [|c2 [|c3 rest]]]; simpl;
        try reflexivity;
        try (destruct (Totem.is_quit c1); reflexivity).
      destruct (Totem.is_quit c1); [reflexivity|].
      pose proof (scroll_viewport c3 q t) as Hv.
      destruct (scroll c3 q t) as [p1 term1]. simpl in Hv. subst p1.
      apply IH. simpl in Hlen. lia. }
  now apply (H (List.length keys)).
Qed.

End Session.

(** X12: when the loop is left with q or Q, [init_buffer] leaves the
    terminal with the attributes it had when the pager was built, and the
    last things printed are the sequence that shows the cursor and the
    two sequences that clear the screen. *)
Theorem terminal_restored_on_quit
  (setraw : Termios.attrs -> Termios.attrs)
  (env : Env) (file : option (list byte)) (keys : list ascii)
  (term : terminal) (self' : t) (term' : terminal) (unread : list ascii) :
  run setraw env file keys term = Ok (Quit self' term' unread) ->
  tty_attrs term' = tty_attrs term /\
  exists out : string,
    screen term'
    = (screen term ++ out
       ++ String ESC "[?25h" ++ String ESC "[2J" ++ String ESC "[H")%string.
Proof.
  unfold run, init.
  destruct (Totem.init env file) as [p|e]; simpl; [|discriminate].
  unfold init_buffer; simpl.
  set (p1 := Totem.set_up_down _ _ p).
  set (term3 := tcsetattr _ _).
  pose proof (key_loop_keeps setraw
                (fun _ t => extends (screen term) (screen t))) as Hk.
  specialize (Hk (fun ch q t Ht =>
                    extends_trans _ _ _ Ht
                      (proj2 (scroll_terminal ch q t)))
                 keys p1 term3).
  assert (H3 : extends (screen term) (screen term3)).
  { apply extends_trans with (screen (to_up (clear term))).
    - unfold to_up, clear, refresh, print_end; cbn [screen].
      rewrite !append_assoc. apply extends_append.
    - apply extends_trans
        with (screen (from__ false p1 (to_up (clear term))));
        [apply from_terminal|].
      unfold term3, tcsetattr, disable_cursor, print_end; cbn [screen].
      apply extends_append. }
  specialize (Hk H3).
  destruct (key_loop setraw keys p1 term3) as [[p2 term4] [u|]];
    intros H; [|discriminate].
  injection H as <- <- <-. simpl. split; [reflexivity|].
  destruct Hk as [out ->]. exists out.
  now rewrite !append_assoc.
Qed.

(** A terminal with nothing printed yet and the echo on. *)
Definition fresh_terminal : terminal :=
  {| screen := "";
     tty_attrs :=
       {| Termios.iflag := 17664; Termios.oflag := 5; Termios.cflag := 191;
          Termios.lflag := 35387; Termios.ispeed := 15;
          Termios.ospeed := 15; Termios.cc := [3; 28; 127; 21; 4; 0; 1] |}
  |}.

Lemma terminal_restored_on_quit_witness :
  exists (self' : t) (term' : terminal) (unread : list ascii),
    run (Termios.set_lflag 0) term_24x80 (Some PagerSpec.thirty_lines)
      (PagerSpec.down_arrow ++ ["q"; "x"]%char) fresh_terminal
    = Ok (Quit self' term' unread) /\
    (tty_attrs term' = tty_attrs fresh_terminal /\
     exists out : string,
       screen term'
       = (screen fresh_terminal ++ out
          ++ String ESC "[?25h" ++ String ESC "[2J"
          ++ String ESC "[H")%string).
Proof.
  do 3 eexists. split.
  - cbv. reflexivity.
  - eapply (terminal_restored_on_quit (Termios.set_lflag 0) term_24x80
              (Some PagerSpec.thirty_lines)
              (PagerSpec.down_arrow ++ ["q"; "x"]%char) fresh_terminal).
    vm_compute. reflexivity.
Defined.

(** X13: while the loop waits for a key, the terminal has the attributes
    it had when the pager was built with the ECHO bit of [lflag] cleared
    and no other bit of it changed, and [tty.setraw] applied to them. *)
Theorem echo_off_while_reading
  (setraw : Termios.attrs -> Termios.attrs)
  (env : Env) (file : option (list byte)) (keys : list ascii)
  (term : terminal) (self' : t) (term' : terminal) :
  run setraw env file keys term = Ok (Reading self' term') ->
  let a := tty_attrs term in
  let l := Z.land (Termios.lflag a) (Z.lnot Termios.ECHO) in
  tty_attrs term' = setraw (Termios.set_lflag l a) /\
  Z.testbit l 3 = false /\
  forall i : Z, i <> 3 -> Z.testbit l i = Z.testbit (Termios.lflag a) i.
Proof.
  unfold run, init.
  destruct (Totem.init env file) as [p|e]; cbn [bind]; [|discriminate].
  unfold init_buffer; cbn [pager old__ new__].
  set (p1 := Totem.set_up_down _ _ p).
  set (new1 := Termios.set_lflag _ _).
  set (term3 := tcsetattr new1 _).
  pose proof (key_loop_keeps setraw
                (fun _ t => tty_attrs t = new1)) as Hk.
  specialize (Hk (fun ch q t Ht =>
                    eq_trans (proj1 (scroll_terminal ch q t)) Ht)
                 keys p1 term3 eq_refl).
  destruct (key_loop setraw keys p1 term3) as [[p2 term4] [u|]];
    intros H; [discriminate|].
  injection H as <- <-.
  destruct Hk as (term0 & H0 & ->). split; [|split].
  - unfold waiting; cbn [tty_attrs tcsetattr]. now rewrite H0.
  - rewrite Z.land_spec, Z.lnot_spec by lia. simpl. apply andb_false_r.
  - intros i Hi. destruct (Z_lt_le_dec i 0) as [Hneg|Hpos].
    + now rewrite !Z.testbit_neg_r.
    + rewrite Z.land_spec, Z.lnot_spec by lia.
      unfold Termios.ECHO. change 8 with (2 ^ 3).
      rewrite Z.pow2_bits_eqb by lia.
      destruct (Z.eqb_spec 3 i); [congruence|].
      now rewrite andb_true_r.
Qed.

Lemma echo_off_while_reading_witness :
  exists (self' : t) (term' : terminal),
    run (Termios.set_lflag 0) term_24x80 (Some PagerSpec.thirty_lines)
      (PagerSpec.down_arrow ++ ["x"]%char) fresh_terminal
    = Ok (Reading self' term') /\
    let a := tty_attrs fresh_terminal in
    let l := Z.land (Termios.lflag a) (Z.lnot Termios.ECHO) in
    tty_attrs term' = Termios.set_lflag 0 (Termios.set_lflag l a) /\
    Z.testbit l 3 = false /\
    forall i : Z, i <> 3 -> Z.testbit l i = Z.testbit (Termios.lflag a) i.
Proof.
  do 2 eexists. split.
  - cbv. reflexivity.
  - eapply (echo_off_while_reading (Termios.set_lflag 0) term_24x80
              (Some PagerSpec.thirty_lines)
              (PagerSpec.down_arrow ++ ["x"]%char) fresh_terminal).
    vm_compute. reflexivity.
Defined.

End PagerTerminal.

(** ** More on the decoder: styles under an alignment, and other bytes *)

Module DecoderQuirks.

Import FPaper_Extract DecoderText.

(** The style arguments that append a fixed escape sequence on every
    platform, with the code of the sequence. *)
Definition shortcut_code (arg : byte) : option string :=
  if FPaperMarkers.is_light_marker arg then Some "0"%string
  else if FPaperMarkers.is_bold_marker arg then Some "1"%string
  else if FPaperMarkers.is_dim_marker arg then Some "2"%string
  else if FPaperMarkers.is_italic_marker arg then Some "3"%string
  else if FPaperMarkers.is_underlined_marker arg then Some "4"%string
  else if FPaperMarkers.is_blink_marker arg then Some "5"%string
  else if FPaperMarkers.is_color_reset arg then Some "0"%string
  else None.

Lemma shortcut_run
  (env : Env) (arg : byte) (code txt scratch : string) (a l c r : bool) :
  shortcut_code arg = Some code ->
  read_loop env [FPaperMarkers.STYLE_MARKER; arg]
    (text_state env txt scratch a l c r)
  = Ok (text_state env (txt ++ sgr code) scratch a l c r).
Proof.
  intros H. destruct arg; try discriminate H;
    injection H as <-; reflexivity.
Qed.

(** X15: a style shortcut between an alignment marker and
    reset-alignment is not kept with the text it stands in: its escape
    sequence goes to the buffer at once, and the aligned text, which
    waits in the scratch buffer, follows it in one piece with its
    padding. *)
Theorem style_under_alignment_comes_first
  (env : Env) (m arg : byte) (code : string)
  (text1 text2 tail : list byte) :
  alignment_marker m -> shortcut_code arg = Some code ->
  Forall literal text1 -> Forall literal text2 -> ends_text tail ->
  decode env
    (Some (header ++ [FPaperMarkers.STYLE_MARKER; m] ++ text1
           ++ [FPaperMarkers.STYLE_MARKER; arg] ++ text2
           ++ [FPaperMarkers.STYLE_MARKER; FPaperMarkers.ALIGN_RESET]
           ++ tail))
  = Ok (sgr code
        ++ padded m (Z.of_N (ws_row env))
             (string_of_list_byte text1 ++ string_of_list_byte text2))%string.
Proof.
  intros Hm Hc H1 H2 Htail. unfold decode, extract.
  rewrite read_loop_app, header_run; cbn [bind].
  rewrite read_loop_app, set_alignment_run by exact Hm; cbn [bind].
  rewrite read_loop_app, scratch_run by exact H1; cbn [bind].
  rewrite read_loop_app, (shortcut_run env arg code) by exact Hc;
    cbn [bind].
  rewrite read_loop_app, scratch_run by exact H2; cbn [bind].
  rewrite read_loop_app, reset_alignment_run by exact Hm; cbn [bind].
  run_tail env tail Htail. reflexivity.
Qed.

Lemma style_under_alignment_comes_first_witness :
  decode term_24x80
    (Some (header ++ [FPaperMarkers.STYLE_MARKER; x7c] ++ [x68]
           ++ [FPaperMarkers.STYLE_MARKER; x31] ++ [x69]
           ++ [FPaperMarkers.STYLE_MARKER; FPaperMarkers.ALIGN_RESET]
           ++ [FPaperMarkers.END_OF_TEXT]))
  = Ok (sgr "1"
        ++ padded x7c (Z.of_N (ws_row term_24x80))
             (string_of_list_byte [x68] ++ string_of_list_byte [x69]))%string.
Proof.
  apply (style_under_alignment_comes_first term_24x80 x7c x31 "1"
           [x68] [x69] [FPaperMarkers.END_OF_TEXT]).
  - right. now left.
  - reflexivity.
  - repeat constructor; discriminate.
  - repeat constructor; discriminate.
  - right. now exists [].
Defined.

(** X16: text with a byte of 128 or more cannot be decoded: after the
    header and any literal text, such a byte makes [decode] raise
    [UnicodeDecodeError], whatever follows it (so also when it starts a
    well-formed UTF-8 sequence). *)
Theorem non_ascii_text_raises
  (env : Env) (lits : list byte) (b : byte) (rest : list byte) :
  Forall literal lits -> (128 <= Byte.to_N b)%N ->
  decode env (Some (header ++ lits ++ b :: rest))
  = Raise UnicodeDecodeError.
Proof.
  intros Hl Hb. unfold decode, extract.
  rewrite read_loop_app, header_run; cbn [bind].
  rewrite read_loop_app, plain_run by exact Hl; cbn [bind].
  destruct b; simpl in Hb; try lia; reflexivity.
Qed.

Lemma non_ascii_text_raises_witness :
  decode term_24x80 (Some (header ++ [x68; x69] ++ xc3 :: [xa9; x15]))
  = Raise UnicodeDecodeError.
Proof.
  apply (non_ascii_text_raises term_24x80 [x68; x69] xc3 [xa9; x15]).
  - repeat constructor; discriminate.
  - simpl. lia.
Defined.

(** A byte below 128 that is none of the style arguments with an effect:
    no shortcut, no alignment code, not color-reset, and in neither range
    of the generic codes. *)
Definition unknown_argument (a : byte) : Prop :=
  ascii_byte a /\
  ~ In a [x30; x31; x32; x33; x34; x35; x36; x72; x7b; x7c; x7d; x7e] /\
  ~ (40 <= Z.of_N (Byte.to_N a) <= 49) /\
  ~ (100 <= Z.of_N (Byte.to_N a) <= 109).

Lemma unknown_argument_run
  (env : Env) (a : byte) (txt scratch : string) (al l c r : bool) :
  unknown_argument a ->
  read_loop env [FPaperMarkers.STYLE_MARKER; a]
    (text_state env txt scratch al l c r)
  = Ok (text_state env txt scratch al l c r).
Proof.
  intros (Ha & Hin & H1 & H2). unfold ascii_byte in Ha.
  destruct a; simpl in Ha, H1, H2; try lia;
    try (exfalso; apply Hin; simpl; tauto);
    reflexivity.
Qed.

(** X17: the byte after a style marker is always taken as its argument.
    When it is a byte with no effect as an argument, the pair is dropped
    and the text goes on, also when that byte is the end-of-text marker
    or the style marker itself: it neither ends the text nor opens
    another pair. *)
Theorem style_argument_is_consumed
  (env : Env) (a : byte) (before after tail : list byte) :
  unknown_argument a ->
  Forall literal before -> Forall literal after -> ends_text tail ->
  decode env
    (Some (header ++ before ++ [FPaperMarkers.STYLE_MARKER; a]
           ++ after ++ tail))
  = Ok (string_of_list_byte before ++ string_of_list_byte after)%string.
Proof.
  intros Ha Hb Hafter Htail. unfold decode, extract.
  rewrite read_loop_app, header_run; cbn [bind].
  rewrite read_loop_app, plain_run by exact Hb; cbn [bind].
  rewrite read_loop_app, unknown_argument_run by exact Ha; cbn [bind].
  rewrite read_loop_app, plain_run by exact Hafter; cbn [bind].
  run_tail env tail Htail. reflexivity.
Qed.

Lemma style_argument_is_consumed_witness :
  decode term_24x80
    (Some (header ++ [x41]
           ++ [FPaperMarkers.STYLE_MARKER; FPaperMarkers.END_OF_TEXT]
           ++ [x42] ++ []))
  = Ok (string_of_list_byte [x41] ++ string_of_list_byte [x42])%string.
Proof.
  apply (style_argument_is_consumed term_24x80 FPaperMarkers.END_OF_TEXT
           [x41] [x42] []).
  - split; [|split; [|split]].
    + unfold ascii_byte. simpl. lia.
    + simpl. intuition discriminate.
    + simpl. lia.
    + simpl. lia.
  - repeat constructor; discriminate.
  - repeat constructor; discriminate.
  - now left.
Defined.

End DecoderQuirks.

(** ** More on the pager: documents that fit in the window *)

Module PagerScroll.

Import Totem.

(** X14: when the document has no more lines than [__h__ / 3.95], the
    height of the window, no key changes the viewport: the top stays at
    0 and [__down__] at the height of the window, whatever is typed. *)
Theorem short_document_cannot_scroll
  (env : Env) (file : option (list byte)) (s0 : t) (keys : list ascii) :
  init env file = Ok s0 ->
  Float64.lt_int (Float64.div_3_95 (h__ s0)) (full_length__ s0) = false ->
  state_of (init_buffer keys s0)
  = set_up_down 0 (Float64.div_3_95 (h__ s0)) s0.
Proof.
  intros Hinit Hfit.
  destruct (PagerSpec.init_viewport env file s0 Hinit) as (Hup & _).
  unfold init_buffer. rewrite Hup.
  apply (PagerSpec.key_loop_invariant
           (fun s => s = set_up_down 0 (Float64.div_3_95 (h__ s0)) s0));
    [|reflexivity].
  intros ch s ->. unfold scroll; simpl. rewrite Hfit.
  destruct (Ascii.eqb ch "A"); [reflexivity|].
  destruct (Ascii.eqb ch "B"); reflexivity.
Qed.

Lemma short_document_cannot_scroll_witness :
  state_of
    (init_buffer (PagerSpec.down_arrow ++ PagerSpec.down_arrow)
       PagerSpec.five_lines_pager)
  = set_up_down 0 (Float64.div_3_95 (h__ PagerSpec.five_lines_pager))
      PagerSpec.five_lines_pager.
Proof.
  apply (short_document_cannot_scroll term_24x80
           (Some PagerSpec.five_lines) PagerSpec.five_lines_pager
           (PagerSpec.down_arrow ++ PagerSpec.down_arrow)).
  - vm_compute. reflexivity.
  - vm_compute. reflexivity.
Defined.

End PagerScroll.
